(** * Yearly precipitation statistics over one Open-Meteo archive request

    A shallow embedding of [WeatherAPI] from
    [yearly_weather_statistics_using_openmeteo.py]: the private helpers
    [__process_dates] and [__send_request] and the public
    [get_yearly_precipitation], together with the small parts of
    [datetime], [pandas] and [numpy] that they call.

    Conventions.
    - Python integers are [Z]; lengths and slice bounds, which are never
      negative here, are [nat].
    - The values of the daily series are IEEE 754 binary floating-point
      numbers of a format [(prec, emax)], written with the executable
      specification [spec_float] of the standard library (one NaN, signed
      zeros and infinities, round to nearest even).  Open-Meteo delivers
      binary32, that is [prec = 24] and [emax = 128].
    - A Python call either returns or raises: [result A].
    - The only effect apart from exceptions is the request handed to the
      Open-Meteo client; it is recorded in a log threaded through [Py].
      Output printed under [verbose] is not part of the model. *)

From Stdlib Require Import ZArith String DecimalString List Bool Lia SpecFloat.
Import ListNotations.

Local Open Scope Z_scope.

(** ** Exceptions and results *)

Inductive exn : Type :=
| ValueError (msg : string)
| IndexError
| AttributeError
| OutOfBoundsDatetime
| ClientError (msg : string).

Inductive result (A : Type) : Type :=
| Return (a : A)
| Raise (e : exn).

Arguments Return {A} a.
Arguments Raise {A} e.

Definition rbind {A B : Type} (r : result A) (k : A -> result B) : result B :=
  match r with
  | Return a => k a
  | Raise e => Raise e
  end.

Declare Scope result_scope.
Delimit Scope result_scope with result.
Notation "x <- r ;; k" := (rbind r (fun x => k))
  (at level 61, r at next level, right associativity) : result_scope.

(** [for x in xs: st = body x st], stopping at the first exception. *)
Fixpoint for_each {A S : Type} (xs : list A) (body : A -> S -> result S) (st : S)
  : result S :=
  match xs with
  | [] => Return st
  | x :: xs' => rbind (body x st) (for_each xs' body)
  end.

(** A list comprehension whose element expression may raise. *)
Fixpoint comprehension {A B : Type} (f : A -> result B) (xs : list A)
  : result (list B) :=
  match xs with
  | [] => Return []
  | x :: xs' =>
      rbind (f x) (fun y => rbind (comprehension f xs') (fun ys => Return (y :: ys)))
  end.

(** Python's [range(lo, hi)]. *)
Definition range (lo hi : Z) : list Z :=
  map (fun k => lo + Z.of_nat k) (seq 0 (Z.to_nat (hi - lo))).

(** [str(i)] for a Python integer. *)
Definition str (i : Z) : string := NilZero.string_of_int (Z.to_int i).

(** ** The part of [datetime] that [__process_dates] uses *)

Module Datetime.

(** A naive [datetime] at midnight. *)
Record datetime : Type := mk_datetime { year : Z; month : Z; day : Z }.

Definition is_leap (y : Z) : bool :=
  (y mod 4 =? 0) && (negb (y mod 100 =? 0) || (y mod 400 =? 0)).

(** Number of days before January 1st of [y], counted from year 1. *)
Definition days_before_year (y : Z) : Z :=
  let p := y - 1 in p * 365 + p / 4 - p / 100 + p / 400.

Definition days_in_month (y m : Z) : Z :=
  if m =? 2 then (if is_leap y then 29 else 28)
  else if (m =? 4) || (m =? 6) || (m =? 9) || (m =? 11) then 30
  else 31.

(** Number of days in year [y] before the first day of month [m]. *)
Definition days_before_month (y m : Z) : Z :=
  fold_right Z.add 0 (map (days_in_month y) (range 1 m)).

(** Proleptic Gregorian ordinal; January 1st of year 1 is day 1. *)
Definition ymd2ord (y m d : Z) : Z :=
  days_before_year y + days_before_month y m + d.

Definition toordinal (dt : datetime) : Z :=
  ymd2ord (year dt) (month dt) (day dt).

(** A month or a day as the source writes it, with two digits. *)
Definition two_digits (m : Z) : string :=
  if m <? 10 then ("0" ++ str m)%string else str m.

(** [datetime.strptime(f"{mm}/{dd}/{i}", "%m/%d/%Y")] for the two
    literal month/day prefixes of the source.  The directive [%Y]
    consumes exactly four decimal digits and the f-string writes [i]
    without padding, so the text parses exactly when [i] has four
    digits.  With more digits the first four are read as the year and
    the others are left over; with fewer, or with a sign, the text does
    not match.  Both ways [strptime] raises [ValueError]. *)
Definition strptime_mdY (mm dd i : Z) : result datetime :=
  let text := (two_digits mm ++ "/" ++ two_digits dd ++ "/" ++ str i)%string in
  if (1000 <=? i) && (i <=? 9999)
  then Return (mk_datetime i mm dd)
  else if 9999 <? i
  then Raise (ValueError ("unconverted data remains: "
                            ++ substring 4 (String.length (str i) - 4) (str i)))
  else Raise (ValueError ("time data '" ++ text ++ "' does not match format '%m/%d/%Y'")).

(** Seconds from 1970-01-01T00:00:00 read on the same wall clock. *)
Definition wall_seconds (dt : datetime) : Z :=
  (toordinal dt - ymd2ord 1970 1 1) * 86400.

(** [dt.timestamp()] of a naive datetime: the wall clock is the local
    one, so the zone's offset east of UTC in force at that wall time,
    [utcoffset], is taken away. *)
Definition timestamp (utcoffset : Z -> Z) (dt : datetime) : Z :=
  wall_seconds dt - utcoffset (wall_seconds dt).

End Datetime.

(** ** The part of [pandas] that computes the length of a year *)

Module Pandas.

(** [pd.to_datetime(t, unit="s")] where a [Timestamp] is a signed
    64-bit count of nanoseconds, the least value being reserved for
    [NaT], as pandas 1 and 2 have it.  Later versions keep the seconds
    and refuse no four-digit year; the two agree on the years 1678 to
    2261, to which the properties below that count days are bound. *)
Definition to_datetime_s (t : Z) : result Z :=
  let ns := t * 1000000000 in
  if (- 2 ^ 63 <? ns) && (ns <? 2 ^ 63)
  then Return ns
  else Raise OutOfBoundsDatetime.

(** [pd.Timedelta(seconds=s)] in nanoseconds. *)
Definition Timedelta_seconds (s : Z) : Z := s * 1000000000.

(** The regular grid [start, start + freq, ...] up to [stop]. *)
Definition generate_range (start stop freq : Z) : list Z :=
  if stop <? start then []
  else map (fun k => start + Z.of_nat k * freq)
           (seq 0 (S (Z.to_nat ((stop - start) / freq)))).

(** [pd.date_range(start, end, freq, inclusive="left")]: the grid, with
    its last point dropped when that point is [end] itself; nothing is
    dropped from the one-point grid of [start == end]. *)
Definition date_range_left (start stop freq : Z) : list Z :=
  let grid := generate_range start stop freq in
  if start =? stop then grid
  else if last grid (stop + 1) =? stop then removelast grid else grid.

End Pandas.

(** ** The part of [numpy] that reduces a year's values *)

Module Numpy.

Definition ndarray : Type := list spec_float.

Definition isnan (x : spec_float) : bool :=
  match x with
  | S754_nan => true
  | _ => false
  end.

(** [a[start:stop]] for [0 <= start]; a slice never raises, it is cut
    at the end of the array. *)
Definition slice (a : ndarray) (start stop : nat) : ndarray :=
  firstn (stop - start) (skipn start a).

(** The element-wise kernels of [np.minimum] and [np.maximum]; both
    hand a NaN on. *)
Definition minimum (x y : spec_float) : spec_float :=
  if SFltb x y || isnan x then x else y.

Definition maximum (x y : spec_float) : spec_float :=
  if SFltb y x || isnan x then x else y.

Definition min (a : ndarray) : result spec_float :=
  match a with
  | [] => Raise (ValueError "zero-size array to reduction operation minimum which has no identity")
  | x :: xs => Return (fold_left minimum xs x)
  end.

Definition max (a : ndarray) : result spec_float :=
  match a with
  | [] => Raise (ValueError "zero-size array to reduction operation maximum which has no identity")
  | x :: xs => Return (fold_left maximum xs x)
  end.

Section Format.

(** The floating-point format of the array's dtype. *)
Variables prec emax : Z.

Definition of_Z (z : Z) : spec_float := binary_normalize prec emax z 0 false.

Definition add : spec_float -> spec_float -> spec_float := SFadd prec emax.

(** numpy's pairwise summation of a contiguous array.  Eight
    accumulators take the first eight items; accumulator [j] then adds
    the items [8 + j], [16 + j], ... of the full blocks of eight. *)
Definition lane (a : ndarray) (j : nat) : spec_float :=
  fold_left add
            (map (fun b => nth (8 * b + j) a (S754_zero true))
                 (seq 1 (length a / 8 - 1)))
            (nth j a (S754_zero true)).

(** The eight accumulators are added in pairs, and the items after the
    last full block are added to the result one by one. *)
Definition block_sum (a : ndarray) : spec_float :=
  let n := length a in
  let res := add (add (add (lane a 0) (lane a 1)) (add (lane a 2) (lane a 3)))
                 (add (add (lane a 4) (lane a 5)) (add (lane a 6) (lane a 7))) in
  fold_left add (skipn (n - n mod 8) a) res.

(** Fewer than eight items are added from left to right starting at
    [-0.0]; up to 128 items are one block; a longer array is cut near
    its middle, at a multiple of eight, and the sums of the two parts
    are added.  [depth] bounds the number of cuts; the length of the
    array is more than enough ([pairwise_sum_depth]). *)
Fixpoint pairwise_sum (depth : nat) (a : ndarray) : spec_float :=
  let n := length a in
  if (n <? 8)%nat then fold_left add a (S754_zero true)
  else if (n <=? 128)%nat then block_sum a
  else match depth with
       | O => block_sum a
       | S depth' =>
           let n2 := (n / 2 - (n / 2) mod 8)%nat in
           add (pairwise_sum depth' (firstn n2 a)) (pairwise_sum depth' (skipn n2 a))
       end.

(** [a.sum()]: the reduction of [np.add] in the array's own precision.
    It starts at [-0.0] and adds the pairwise sum of the items; over no
    item at all it is [0.0]. *)
Definition sum (a : ndarray) : spec_float :=
  match a with
  | [] => S754_zero false
  | _ :: _ => add (S754_zero true) (pairwise_sum (length a) a)
  end.

(** [np.mean(a)]: the same sum divided by the number of items and
    rounded to the array's own precision; NaN (and a warning) on an
    empty array. *)
Definition mean (a : ndarray) : spec_float :=
  SFdiv prec emax (sum a) (of_Z (Z.of_nat (length a))).

End Format.

End Numpy.

(** ** The table built by [__send_request] *)

(** The dictionary [df_data]: five lists that grow together. *)
Record df_data : Type := mk_df_data {
  year : list Z;
  precipitation_sum : Numpy.ndarray;
  precipitation_daily_avg : Numpy.ndarray;
  precipitation_min : Numpy.ndarray;
  precipitation_max : Numpy.ndarray
}.

Inductive column : Type :=
| IntColumn (values : list Z)
| FloatColumn (values : Numpy.ndarray).

Inductive cell : Type :=
| IntCell (z : Z)
| FloatCell (x : spec_float).

(** A [pd.DataFrame]: labelled columns, in order. *)
Definition DataFrame : Type := list (string * column).

(** [pd.DataFrame()]. *)
Definition DataFrame_empty : DataFrame := [].

(** [pd.DataFrame(data=df_data)]. *)
Definition DataFrame_of_dict (d : df_data) : DataFrame :=
  [ ("year"%string, IntColumn (year d));
    ("precipitation_sum"%string, FloatColumn (precipitation_sum d));
    ("precipitation_daily_avg"%string, FloatColumn (precipitation_daily_avg d));
    ("precipitation_min"%string, FloatColumn (precipitation_min d));
    ("precipitation_max"%string, FloatColumn (precipitation_max d)) ].

Definition cells (c : column) : list cell :=
  match c with
  | IntColumn zs => map IntCell zs
  | FloatColumn xs => map FloatCell xs
  end.

Definition columns (df : DataFrame) : list string := map fst df.

(** [len(df)]. *)
Definition nrows (df : DataFrame) : nat :=
  match df with
  | [] => 0%nat
  | (_, c) :: _ => length (cells c)
  end.

(** The cells at position [i] of every column, with their labels. *)
Fixpoint across (df : DataFrame) (i : nat) : option (list (string * cell)) :=
  match df with
  | [] => Some []
  | (label, c) :: df' =>
      match nth_error (cells c) i, across df' i with
      | Some v, Some r => Some ((label, v) :: r)
      | _, _ => None
      end
  end.

(** [df.iloc[i]] as label/value pairs; [None] past the last row. *)
Definition iloc (df : DataFrame) (i : nat) : option (list (string * cell)) :=
  if (i <? nrows df)%nat then across df i else None.

(** The rows of a table, top to bottom. *)
Definition rows (df : DataFrame) : list (option (list (string * cell))) :=
  map (iloc df) (seq 0 (nrows df)).

(** ** The request and the Open-Meteo client *)

Section Client.

(** The type of the two elements of [long_lat]. *)
Variable coord : Type.

(** The dictionary [packet]; the two dates are absent until
    [__send_request] stores them. *)
Record packet : Type := mk_packet {
  latitude : coord;
  longitude : coord;
  year_start : Z;
  year_end : Z;
  daily : string;
  start_date : option string;
  end_date : option string
}.

Definition set_start_date (p : packet) (s : string) : packet :=
  mk_packet (latitude p) (longitude p) (year_start p) (year_end p) (daily p)
            (Some s) (end_date p).

Definition set_end_date (p : packet) (s : string) : packet :=
  mk_packet (latitude p) (longitude p) (year_start p) (year_end p) (daily p)
            (start_date p) (Some s).

(** One answer of the service: the arrays of its daily variables. *)
Record response : Type := mk_response { Daily_Variables : list Numpy.ndarray }.

(** Every call made to the Open-Meteo client, oldest first. *)
Definition network : Type := list (string * packet).

(** A computation that may call the service and may raise. *)
Definition Py (A : Type) : Type := network -> result A * network.

Definition ret {A : Type} (a : A) : Py A := fun log => (Return a, log).

Definition lift {A : Type} (r : result A) : Py A := fun log => (r, log).

Definition bind {A B : Type} (m : Py A) (k : A -> Py B) : Py B :=
  fun log =>
    match m log with
    | (Return a, log') => k a log'
    | (Raise e, log') => (Raise e, log')
    end.

(** [try: body  except Exception as e: handler e]. *)
Definition try_except {A : Type} (body : Py A) (handler : exn -> Py A) : Py A :=
  fun log =>
    match body log with
    | (Return a, log') => (Return a, log')
    | (Raise e, log') => handler e log'
    end.

End Client.

Arguments mk_packet {coord}.
Arguments latitude {coord}.
Arguments longitude {coord}.
Arguments year_start {coord}.
Arguments year_end {coord}.
Arguments daily {coord}.
Arguments start_date {coord}.
Arguments end_date {coord}.
Arguments set_start_date {coord}.
Arguments set_end_date {coord}.
Arguments ret {coord A}.
Arguments lift {coord A}.
Arguments bind {coord A B}.
Arguments try_except {coord A}.

Declare Scope py_scope.
Delimit Scope py_scope with py.
Notation "x <~ m ;; k" := (bind m (fun x => k))
  (at level 61, m at next level, right associativity) : py_scope.

(** [xs[i]] for a Python list. *)
Definition getitem {A : Type} (xs : list A) (i : Z) : result A :=
  match nth_error xs (Z.to_nat (if i <? 0 then i + Z.of_nat (length xs) else i)) with
  | Some x => if (i <? 0) && (i + Z.of_nat (length xs) <? 0) then Raise IndexError else Return x
  | None => Raise IndexError
  end.

(** ** [WeatherAPI] *)

Section WeatherAPI.

(** The local zone of the machine that runs the code. *)
Variable utcoffset : Z -> Z.

(** The floating-point format of the series the service returns. *)
Variables prec emax : Z.

Variable coord : Type.

(** [self.OpenMeteo.weather_api(url, params=...)], with its cache and
    its retries: whatever it does, it ends by returning the list of
    answers or by raising. *)
Variable weather_api : string -> packet coord -> result (list response).

Definition endpoint : string := "https://archive-api.open-meteo.com/v1/archive".

Definition process_dates (year_start year_end : Z) : result (list (Z * Z)) :=
  comprehension
    (fun i =>
       (a <- Datetime.strptime_mdY 1 1 i ;;
        b <- Datetime.strptime_mdY 12 31 i ;;
        Return (Datetime.timestamp utcoffset a, Datetime.timestamp utcoffset b))%result)
    (range year_start (year_end + 1)).

(** The expression bound to [days] in the loop of [__send_request],
    for one entry of [dates]. *)
Definition days_of (d : Z * Z) : result nat :=
  (s <- Pandas.to_datetime_s (fst d) ;;
   e <- Pandas.to_datetime_s (snd d) ;;
   Return (length (Pandas.date_range_left s e (Pandas.Timedelta_seconds 86400))))%result.

(** Lines 123 to 127: one more entry in each of the five lists. *)
Definition append_stats (d : df_data) (y : Z) (years_data : Numpy.ndarray)
  : result df_data :=
  (let ys := year d ++ [y] in
   let sums := precipitation_sum d ++ [Numpy.sum prec emax years_data] in
   let avgs := precipitation_daily_avg d ++ [Numpy.mean prec emax years_data] in
   lo <- Numpy.min years_data ;;
   let mins := precipitation_min d ++ [lo] in
   hi <- Numpy.max years_data ;;
   let maxs := precipitation_max d ++ [hi] in
   Return (mk_df_data ys sums avgs mins maxs))%result.

(** The body of the [for] loop on the state [(last_ind, df_data)]. *)
Definition loop_body (precip : Numpy.ndarray) (dates : list (Z * Z)) (start_year : Z)
           (i : Z) (st : nat * df_data) : result (nat * df_data) :=
  (let '(last_ind, d) := st in
   date <- getitem dates i ;;
   days <- days_of date ;;
   let years_data := Numpy.slice precip last_ind (days + last_ind) in
   d' <- append_stats d (i + start_year) years_data ;;
   Return ((days + last_ind)%nat, d'))%result.

(** Lines 104 to 131: the loop over the years and the table it fills. *)
Definition bucket (precip : Numpy.ndarray) (dates : list (Z * Z))
           (start_year end_year : Z) : result DataFrame :=
  (st <- for_each (range 0 (end_year - start_year + 1))
                  (loop_body precip dates start_year)
                  (0%nat, mk_df_data [] [] [] [] []) ;;
   Return (DataFrame_of_dict (snd st)))%result.

(** The call inside [try], logged. *)
Definition call_weather_api (p : packet coord) : Py coord (list response) :=
  fun log => (weather_api endpoint p, log ++ [(endpoint, p)]).

Definition send_request (packet0 : packet coord) : Py coord DataFrame :=
  (let df := DataFrame_empty in
   let start_year := year_start packet0 in
   let end_year := year_end packet0 in
   dates <~ lift (process_dates start_year end_year) ;;
   let packet1 := set_start_date packet0 (str (year_start packet0) ++ "-01-01") in
   let packet2 := set_end_date packet1 (str (year_end packet1) ++ "-12-31") in
   fetched <~ try_except
                (answers <~ call_weather_api packet2 ;;
                 first <~ lift (getitem answers 0) ;;
                 ret (inr first))
                (fun _ => ret (inl df)) ;;
   match fetched with
   | inl early => ret early
   | inr response =>
       precip <~ lift (match Daily_Variables response with
                       | v :: _ => Return v
                       | [] => Raise AttributeError
                       end) ;;
       lift (bucket precip dates start_year end_year)
   end)%py.

Definition get_yearly_precipitation (year_start year_end : Z) (long_lat : coord * coord)
  : Py coord DataFrame :=
  send_request (mk_packet (snd long_lat) (fst long_lat) year_start year_end
                          "precipitation_sum" None None).

End WeatherAPI.

(** Coordinated universal time, the zone of a hosted notebook. *)
Definition UTC : Z -> Z := fun _ => 0.

(** ** Notions used to state the properties *)

(** The two days [__process_dates] reads for year [y]. *)
Definition jan1 (y : Z) : Datetime.datetime := Datetime.mk_datetime y 1 1.
Definition dec31 (y : Z) : Datetime.datetime := Datetime.mk_datetime y 12 31.

(** The entry of [dates] for year [y]. *)
Definition stamps (utcoffset : Z -> Z) (y : Z) : Z * Z :=
  (Datetime.timestamp utcoffset (jan1 y), Datetime.timestamp utcoffset (dec31 y)).

(** The zone has the same offset, of at most a day, at the two midnights
    of year [y] that the code converts. *)
Definition steady_zone (utcoffset : Z -> Z) (y : Z) : Prop :=
  utcoffset (Datetime.wall_seconds (jan1 y)) = utcoffset (Datetime.wall_seconds (dec31 y))
  /\ -86400 <= utcoffset (Datetime.wall_seconds (jan1 y)) <= 86400.

(** The years whose two midnights fit a nanosecond [Timestamp]. *)
Definition pandas_year (y : Z) : Prop := 1678 <= y <= 2261.

(** The years of the range are such that the code finds their day
    counts. *)
Definition countable (utcoffset : Z -> Z) (ys ye : Z) : Prop :=
  forall y, ys <= y <= ye -> pandas_year y /\ steady_zone utcoffset y.

(** The number of calendar days of year [y]. *)
Definition calendar_length (y : Z) : Z :=
  Datetime.ymd2ord (y + 1) 1 1 - Datetime.ymd2ord y 1 1.

(** The value the loop binds to [days] for year [y]. *)
Definition window_length (y : Z) : nat :=
  if Datetime.is_leap y then 365%nat else 364%nat.

(** The slices [precip[last_ind:days+last_ind]] the loop takes when it
    starts at [last_ind] and meets the day counts [ds] in turn. *)
Fixpoint windows (precip : Numpy.ndarray) (last_ind : nat) (ds : list nat)
  : list Numpy.ndarray :=
  match ds with
  | [] => []
  | days :: ds' =>
      Numpy.slice precip last_ind (days + last_ind)
        :: windows precip (days + last_ind) ds'
  end.

Definition nonempty (w : Numpy.ndarray) : bool :=
  match w with
  | [] => false
  | _ :: _ => true
  end.

(** [np.min] and [np.max] where they return. *)
Definition min_of (w : Numpy.ndarray) : spec_float :=
  fold_left Numpy.minimum (tl w) (hd S754_nan w).

Definition max_of (w : Numpy.ndarray) : spec_float :=
  fold_left Numpy.maximum (tl w) (hd S754_nan w).

(** The table whose rows are the statistics of the windows [ws], one
    per year of [ys]. *)
Definition table (prec emax : Z) (ys : list Z) (ws : list Numpy.ndarray) : DataFrame :=
  DataFrame_of_dict
    (mk_df_data ys
                (map (Numpy.sum prec emax) ws)
                (map (Numpy.mean prec emax) ws)
                (map min_of ws)
                (map max_of ws)).

(** One row, as [iloc] shows it. *)
Definition row (y : Z) (s a lo hi : spec_float) : list (string * cell) :=
  [ ("year"%string, IntCell y);
    ("precipitation_sum"%string, FloatCell s);
    ("precipitation_daily_avg"%string, FloatCell a);
    ("precipitation_min"%string, FloatCell lo);
    ("precipitation_max"%string, FloatCell hi) ].

Definition row_of (prec emax : Z) (y : Z) (w : Numpy.ndarray) : list (string * cell) :=
  row y (Numpy.sum prec emax w) (Numpy.mean prec emax w) (min_of w) (max_of w).

(** The dictionary that reaches the client for given arguments. *)
Definition request {coord : Type} (ys ye : Z) (long_lat : coord * coord) : packet coord :=
  mk_packet (snd long_lat) (fst long_lat) ys ye "precipitation_sum"
            (Some (str ys ++ "-01-01")%string) (Some (str ye ++ "-12-31")%string).

(** What [__send_request] makes of the client's answer. *)
Definition outcome (prec emax : Z) (answer : result (list response))
           (dates : list (Z * Z)) (ys ye : Z) : result DataFrame :=
  match answer with
  | Raise _ => Return DataFrame_empty
  | Return [] => Return DataFrame_empty
  | Return (first :: _) =>
      match Daily_Variables first with
      | [] => Raise AttributeError
      | precip :: _ => bucket prec emax precip dates ys ye
      end
  end.

(** The sum of the calendar lengths of some years. *)
Definition calendar_days (years : list Z) : Z :=
  fold_right Z.add 0 (map calendar_length years).

Definition no_min : exn :=
  ValueError "zero-size array to reduction operation minimum which has no identity".

(** Binary32 numbers and two stand-ins for the service. *)
Definition f32 (z : Z) : spec_float := Numpy.of_Z 24 128 z.

Definition serves (precip : Numpy.ndarray)
  : string -> packet Z -> result (list response) :=
  fun _ _ => Return [mk_response [precip]].

Definition unreachable (msg : string)
  : string -> packet Z -> result (list response) :=
  fun _ _ => Raise (ClientError msg).

(** The labels of the table of a call that reached the loop. *)
Definition five_columns : list string :=
  ["year"; "precipitation_sum"; "precipitation_daily_avg"; "precipitation_min";
   "precipitation_max"]%string.

(** A zone whose offset drops within a year: four hours behind UTC
    until December 9th, 2007, four and a half hours from then on. *)
Definition Caracas : Z -> Z :=
  fun t =>
    if t <? Datetime.wall_seconds (Datetime.mk_datetime 2007 12 9)
    then -14400 else -16200.

(** Where the window of the [k]-th year starts: after the windows of
    the [k] years before it. *)
Definition window_start (ds : list nat) (k : nat) : nat := list_sum (firstn k ds).

(** Case analysis on the comparisons of exponents and mantissas. *)
Ltac compare_cases :=
  repeat match goal with
         | H : context [Z.compare ?a ?b] |- _ => destruct (Z.compare_spec a b); try discriminate H
         | H : context [Pos.compare_cont Eq ?a ?b] |- _ =>
             change (Pos.compare_cont Eq a b) with (Pos.compare a b) in H;
             destruct (Pos.compare_spec a b); try discriminate H
         | |- context [Z.compare ?a ?b] => destruct (Z.compare_spec a b)
         | |- context [Pos.compare_cont Eq ?a ?b] =>
             change (Pos.compare_cont Eq a b) with (Pos.compare a b);
             destruct (Pos.compare_spec a b)
         end;
  subst; cbn in *; try reflexivity; try discriminate; try lia.

(** * Properties *)

(** ** Results and ranges *)

Lemma in_range (lo hi y : Z) : In y (range lo hi) <-> lo <= y < hi.
Proof.
  unfold range. rewrite in_map_iff. split.
  - intros (k & <- & Hk). apply in_seq in Hk. lia.
  - intros H. exists (Z.to_nat (y - lo)). split; [lia|]. apply in_seq. lia.
Qed.

Lemma length_range (lo hi : Z) : length (range lo hi) = Z.to_nat (hi - lo).
Proof. unfold range. now rewrite length_map, length_seq. Qed.

Lemma comprehension_total {A B : Type} (f : A -> result B) (g : A -> B) (xs : list A) :
  (forall x, In x xs -> f x = Return (g x)) ->
  comprehension f xs = Return (map g xs).
Proof.
  induction xs as [|x xs IH]; intros H; simpl; [reflexivity|].
  rewrite (H x (or_introl eq_refl)). simpl.
  rewrite IH by (intros; apply H; now right). reflexivity.
Qed.

(** ** The calendar *)

Lemma days_before_december (y : Z) :
  Datetime.days_before_month y 12 = 334 + (if Datetime.is_leap y then 1 else 0).
Proof.
  unfold Datetime.days_before_month, Datetime.days_in_month.
  cbn [range Z.sub Z.opp Z.add Z.pos_sub Z.to_nat Pos.to_nat Pos.iter_op Pos.pred_double
       Init.Nat.add seq map fold_right Z.of_nat Pos.of_succ_nat Pos.succ Z.eqb Pos.eqb
       orb Z.succ_double Z.pred_double Z.double Pos.add Nat.add].
  destruct (Datetime.is_leap y); reflexivity.
Qed.

Lemma year_span (y : Z) :
  Datetime.toordinal (dec31 y) - Datetime.toordinal (jan1 y) = Z.of_nat (window_length y).
Proof.
  unfold Datetime.toordinal, Datetime.ymd2ord, jan1, dec31, window_length. simpl Datetime.year.
  simpl Datetime.month. simpl Datetime.day. rewrite days_before_december.
  change (Datetime.days_before_month y 1) with 0.
  destruct (Datetime.is_leap y); lia.
Qed.

(** The calendar itself gives every year 365 days, and 366 to leap years. *)
Lemma calendar_length_leap (y : Z) :
  calendar_length y = if Datetime.is_leap y then 366 else 365.
Proof.
  unfold calendar_length, Datetime.ymd2ord.
  change (Datetime.days_before_month (y + 1) 1) with 0.
  change (Datetime.days_before_month y 1) with 0.
  unfold Datetime.days_before_year, Datetime.is_leap.
  replace (y + 1 - 1) with y by lia.
  destruct (y mod 4 =? 0) eqn:E4; destruct (y mod 100 =? 0) eqn:E100;
    destruct (y mod 400 =? 0) eqn:E400; cbn [andb orb negb];
    rewrite ?Z.eqb_eq, ?Z.eqb_neq in *;
    Z.to_euclidean_division_equations; lia.
Qed.

(** ** The grid of [date_range] *)

Lemma date_range_left_exact (start freq : Z) (n : nat) :
  0 < freq -> (0 < n)%nat ->
  length (Pandas.date_range_left start (start + Z.of_nat n * freq) freq) = n.
Proof.
  intros Hf Hn. unfold Pandas.date_range_left, Pandas.generate_range.
  replace (start =? start + Z.of_nat n * freq) with false
    by (symmetry; apply Z.eqb_neq; nia).
  assert (Hlt : (start + Z.of_nat n * freq <? start) = false) by (apply Z.ltb_ge; nia).
  rewrite Hlt.
  replace (start + Z.of_nat n * freq - start) with (Z.of_nat n * freq) by lia.
  rewrite Z.div_mul by lia. rewrite Nat2Z.id.
  rewrite seq_S, map_app. cbn [map Nat.add].
  rewrite last_last, Z.eqb_refl, removelast_last.
  now rewrite length_map, length_seq.
Qed.

(** ** The day count of one year *)

Section DayCount.

Variable utcoffset : Z -> Z.

Lemma jan1_bounds (y : Z) :
  pandas_year y ->
  -9214560000 <= Datetime.wall_seconds (jan1 y) <= 9183110400.
Proof.
  unfold pandas_year, Datetime.wall_seconds, Datetime.toordinal, Datetime.ymd2ord, jan1.
  cbn [Datetime.year Datetime.month Datetime.day].
  change (Datetime.days_before_month y 1) with 0.
  change (Datetime.days_before_year 1970 + Datetime.days_before_month 1970 1 + 1)
    with 719163.
  unfold Datetime.days_before_year. intros H.
  Z.to_euclidean_division_equations. lia.
Qed.

Lemma dec31_after_jan1 (y : Z) :
  Datetime.wall_seconds (dec31 y)
  = Datetime.wall_seconds (jan1 y) + Z.of_nat (window_length y) * 86400.
Proof.
  unfold Datetime.wall_seconds. pose proof (year_span y). lia.
Qed.

Lemma window_length_bounds (y : Z) : (364 <= window_length y <= 365)%nat.
Proof. unfold window_length. destruct (Datetime.is_leap y); lia. Qed.

(** The loop's [days] for a year is one less than the year is long. *)
Lemma days_of_year (y : Z) :
  pandas_year y -> steady_zone utcoffset y ->
  days_of (stamps utcoffset y) = Return (window_length y).
Proof.
  intros Hy [Hsame Hoff]. unfold days_of, stamps, Datetime.timestamp. cbn [fst snd].
  rewrite <- Hsame, dec31_after_jan1.
  pose proof (jan1_bounds y Hy) as Hb. pose proof (window_length_bounds y) as Hw.
  set (w := Datetime.wall_seconds (jan1 y)) in *.
  set (o := utcoffset w) in *.
  unfold Pandas.to_datetime_s.
  assert (H1 : ((- 2 ^ 63 <? (w - o) * 1000000000)
                && ((w - o) * 1000000000 <? 2 ^ 63))%bool = true).
  { apply andb_true_intro; split; apply Z.ltb_lt;
      change (2 ^ 63) with 9223372036854775808; lia. }
  assert (H2 : ((- 2 ^ 63 <? (w + Z.of_nat (window_length y) * 86400 - o) * 1000000000)
                && ((w + Z.of_nat (window_length y) * 86400 - o) * 1000000000 <? 2 ^ 63))%bool
               = true).
  { apply andb_true_intro; split; apply Z.ltb_lt;
      change (2 ^ 63) with 9223372036854775808; lia. }
  cbv zeta. rewrite H1. cbn [rbind]. rewrite H2. cbn [rbind]. f_equal.
  replace ((w + Z.of_nat (window_length y) * 86400 - o) * 1000000000)
    with ((w - o) * 1000000000
          + Z.of_nat (window_length y) * Pandas.Timedelta_seconds 86400)
    by (unfold Pandas.Timedelta_seconds; lia).
  apply date_range_left_exact; [reflexivity | lia].
Qed.

Lemma strptime_four_digits (mm dd y : Z) :
  1000 <= y <= 9999 ->
  Datetime.strptime_mdY mm dd y = Return (Datetime.mk_datetime y mm dd).
Proof.
  intros H. unfold Datetime.strptime_mdY.
  replace ((1000 <=? y) && (y <=? 9999))%bool with true; [reflexivity|].
  symmetry. apply andb_true_intro. split; apply Z.leb_le; lia.
Qed.

Lemma process_dates_four_digits (ys ye : Z) :
  (forall y, ys <= y <= ye -> 1000 <= y <= 9999) ->
  process_dates utcoffset ys ye = Return (map (stamps utcoffset) (range ys (ye + 1))).
Proof.
  intros H. unfold process_dates. apply comprehension_total.
  intros y Hy. apply in_range in Hy.
  rewrite !strptime_four_digits by (apply H; lia). reflexivity.
Qed.

Lemma process_dates_empty (ys ye : Z) :
  ye < ys -> process_dates utcoffset ys ye = Return [].
Proof.
  intros H. unfold process_dates, range.
  replace (Z.to_nat (ye + 1 - ys)) with 0%nat by lia. reflexivity.
Qed.

End DayCount.

(** ** One year's statistics *)

Section Stats.

Variables prec emax : Z.

Lemma append_stats_empty (d : df_data) (y : Z) :
  append_stats prec emax d y [] = Raise no_min.
Proof. reflexivity. Qed.

Lemma append_stats_nonempty (d : df_data) (y : Z) (w : Numpy.ndarray) :
  nonempty w = true ->
  append_stats prec emax d y w
  = Return (mk_df_data (year d ++ [y])
                       (precipitation_sum d ++ [Numpy.sum prec emax w])
                       (precipitation_daily_avg d ++ [Numpy.mean prec emax w])
                       (precipitation_min d ++ [min_of w])
                       (precipitation_max d ++ [max_of w])).
Proof. destruct w; [discriminate|reflexivity]. Qed.

End Stats.

(** ** The loop over the years *)

Lemma getitem_nat {A : Type} (xs : list A) (k : nat) (x : A) :
  nth_error xs k = Some x -> getitem xs (0 + Z.of_nat k) = Return x.
Proof.
  intros H. unfold getitem.
  replace (0 + Z.of_nat k <? 0) with false by (symmetry; apply Z.ltb_ge; lia).
  cbn [andb]. replace (Z.to_nat (0 + Z.of_nat k)) with k by lia. now rewrite H.
Qed.

Section Loop.

Variables prec emax : Z.
Variable precip : Numpy.ndarray.
Variable dates : list (Z * Z).
Variable start_year : Z.

(** The day count the loop meets at index [k]. *)
Variable days_at : nat -> nat.
Variable n : nat.
Hypothesis dates_days :
  forall k, (k < n)%nat ->
    exists date, nth_error dates k = Some date /\ days_of date = Return (days_at k).

Lemma loop_from (m : nat) :
  forall (j last_ind : nat) (d : df_data),
    (j + m <= n)%nat ->
    let ws := windows precip last_ind (map days_at (seq j m)) in
    rbind (for_each (map (fun k => 0 + Z.of_nat k) (seq j m))
                    (loop_body prec emax precip dates start_year) (last_ind, d))
          (fun st => Return (snd st))
    = if forallb nonempty ws
      then Return (mk_df_data (year d ++ map (fun k => 0 + Z.of_nat k + start_year) (seq j m))
                              (precipitation_sum d ++ map (Numpy.sum prec emax) ws)
                              (precipitation_daily_avg d ++ map (Numpy.mean prec emax) ws)
                              (precipitation_min d ++ map min_of ws)
                              (precipitation_max d ++ map max_of ws))
      else Raise no_min.
Proof.
  induction m as [|m IH]; intros j last_ind d Hj ws.
  - subst ws. cbn. rewrite !app_nil_r. now destruct d.
  - subst ws. cbn [seq map windows forallb for_each].
    destruct (dates_days j ltac:(lia)) as (date & Hdate & Hdays).
    unfold loop_body at 1. rewrite (getitem_nat _ _ _ Hdate). cbn [rbind].
    rewrite Hdays. cbn [rbind].
    destruct (nonempty (Numpy.slice precip last_ind (days_at j + last_ind))) eqn:Hw.
    + rewrite (append_stats_nonempty _ _ _ _ _ Hw). cbn [rbind andb].
      rewrite IH by lia. cbn [year precipitation_sum precipitation_daily_avg
                                  precipitation_min precipitation_max].
      rewrite <- !app_assoc. reflexivity.
    + destruct (Numpy.slice precip last_ind (days_at j + last_ind)); [|discriminate].
      reflexivity.
Qed.

End Loop.

Lemma rbind_snd {A B C : Type} (r : result (A * B)) (f : B -> C) :
  rbind r (fun st => Return (f (snd st)))
  = rbind (rbind r (fun st => Return (snd st))) (fun d => Return (f d)).
Proof. destruct r; reflexivity. Qed.

Lemma nth_error_range (lo hi : Z) (k : nat) :
  (k < Z.to_nat (hi - lo))%nat -> nth_error (range lo hi) k = Some (lo + Z.of_nat k).
Proof.
  intros H. unfold range. rewrite nth_error_map, nth_error_seq.
  destruct (Nat.ltb_spec k (Z.to_nat (hi - lo))); [reflexivity|lia].
Qed.

Section Bucket.

Variable utcoffset : Z -> Z.
Variables prec emax : Z.

(** What the loop returns, in terms of the windows it takes. *)
Lemma bucket_windows (precip : Numpy.ndarray) (ys ye : Z) :
  countable utcoffset ys ye ->
  let years := range ys (ye + 1) in
  let ws := windows precip 0 (map window_length years) in
  bucket prec emax precip (map (stamps utcoffset) years) ys ye
  = if forallb nonempty ws then Return (table prec emax years ws) else Raise no_min.
Proof.
  intros Hc years ws. unfold bucket. rewrite rbind_snd.
  set (m := Z.to_nat (ye + 1 - ys)).
  assert (Hr : range 0 (ye - ys + 1) = map (fun k => 0 + Z.of_nat k) (seq 0 m)).
  { unfold range, m. do 2 f_equal. lia. }
  rewrite Hr.
  rewrite (loop_from prec emax precip (map (stamps utcoffset) years) ys
                     (fun k => window_length (ys + Z.of_nat k)) m).
  - cbn [year precipitation_sum precipitation_daily_avg precipitation_min
              precipitation_max app].
    assert (Hd : map (fun k => window_length (ys + Z.of_nat k)) (seq 0 m)
                 = map window_length years).
    { unfold years, range. now rewrite map_map. }
    assert (Hy : map (fun k => 0 + Z.of_nat k + ys) (seq 0 m) = years).
    { unfold years, range. apply map_ext. intros; lia. }
    rewrite Hd, Hy. fold ws. destruct (forallb nonempty ws); reflexivity.
  - intros k Hk. exists (stamps utcoffset (ys + Z.of_nat k)). split.
    + unfold years. rewrite nth_error_map, nth_error_range by exact Hk. reflexivity.
    + destruct (Hc (ys + Z.of_nat k)) as [Hp Hz]; [unfold m in Hk; lia|].
      now apply days_of_year.
  - lia.
Qed.

End Bucket.

(** ** Where the windows lie *)

Lemma slice_length (a : Numpy.ndarray) (start len : nat) :
  length (Numpy.slice a start (len + start)) = Nat.min len (length a - start).
Proof.
  unfold Numpy.slice. replace (len + start - start)%nat with len by lia.
  now rewrite length_firstn, length_skipn.
Qed.

Lemma nonempty_length (w : Numpy.ndarray) : nonempty w = true <-> (0 < length w)%nat.
Proof. destruct w; cbn; split; intros; try lia; try discriminate; reflexivity. Qed.

Lemma slice_nonempty (a : Numpy.ndarray) (start len : nat) :
  (0 < len)%nat ->
  nonempty (Numpy.slice a start (len + start)) = true <-> (start < length a)%nat.
Proof. intros H. rewrite nonempty_length, slice_length. lia. Qed.

(** The years all get a window with something in it exactly when the
    last one does, that is, when the series is longer than what the
    years before it take. *)
Lemma windows_nonempty (a : Numpy.ndarray) (ds : list nat) :
  forall start,
    Forall (fun d => (0 < d)%nat) ds -> ds <> [] ->
    forallb nonempty (windows a start ds) = true
    <-> (start + list_sum (removelast ds) < length a)%nat.
Proof.
  induction ds as [|d ds IH]; intros start Hpos Hne; [congruence|].
  inversion Hpos as [|? ? Hd Hds]; subst.
  cbn [windows forallb]. rewrite andb_true_iff, slice_nonempty by exact Hd.
  destruct ds as [|d' ds'].
  - cbn. lia.
  - rewrite IH by (try assumption; congruence).
    change (removelast (d :: d' :: ds')) with (d :: removelast (d' :: ds')).
    set (r := removelast (d' :: ds')).
    change (list_sum (d :: r)) with (d + list_sum r)%nat. lia.
Qed.

Lemma firstn_plus {A : Type} (n m : nat) :
  forall l : list A, firstn (n + m) l = firstn n l ++ firstn m (skipn n l).
Proof.
  induction n as [|n IH]; intros l; [reflexivity|].
  destruct l as [|x l]; cbn; [now rewrite firstn_nil|]. now rewrite IH.
Qed.

(** When the series is long enough, the windows have their full lengths. *)
Lemma windows_full (a : Numpy.ndarray) (ds : list nat) :
  forall start,
    (start + list_sum ds <= length a)%nat ->
    map (@length _) (windows a start ds) = ds
    /\ concat (windows a start ds) = firstn (list_sum ds) (skipn start a).
Proof.
  induction ds as [|d ds IH]; intros start H; [now cbn|].
  change (list_sum (d :: ds)) with (d + list_sum ds)%nat in *.
  cbn [windows map concat].
  destruct (IH (d + start)%nat ltac:(lia)) as [IHl IHc]. split.
  - rewrite IHl, slice_length. f_equal. lia.
  - rewrite IHc. unfold Numpy.slice. replace (d + start - start)%nat with d by lia.
    now rewrite <- skipn_skipn, firstn_plus.
Qed.

(** ** Floating-point facts *)

Lemma isnan_true (x : spec_float) : Numpy.isnan x = true <-> x = S754_nan.
Proof. destruct x; cbn; split; congruence. Qed.

Section Absorbing.

(** A binary kernel that hands a NaN on from either side, folded over
    an array. *)
Variable op : spec_float -> spec_float -> spec_float.
Hypothesis op_nan_l : forall y, op S754_nan y = S754_nan.
Hypothesis op_nan_r : forall x, op x S754_nan = S754_nan.

Lemma fold_from_nan (xs : list spec_float) : fold_left op xs S754_nan = S754_nan.
Proof. induction xs as [|x xs IH]; cbn; [reflexivity|]. now rewrite op_nan_l. Qed.

Lemma fold_over_nan (xs : list spec_float) :
  forall acc, In S754_nan xs -> fold_left op xs acc = S754_nan.
Proof.
  induction xs as [|x xs IH]; intros acc Hin; [contradiction|].
  cbn. destruct Hin as [-> | Hin].
  - rewrite op_nan_r. apply fold_from_nan.
  - now apply IH.
Qed.

End Absorbing.

Lemma minimum_nan_l (y : spec_float) : Numpy.minimum S754_nan y = S754_nan.
Proof. reflexivity. Qed.

Lemma minimum_nan_r (x : spec_float) : Numpy.minimum x S754_nan = S754_nan.
Proof. destruct x; reflexivity. Qed.

Lemma maximum_nan_l (y : spec_float) : Numpy.maximum S754_nan y = S754_nan.
Proof. destruct y; reflexivity. Qed.

Lemma maximum_nan_r (x : spec_float) : Numpy.maximum x S754_nan = S754_nan.
Proof. destruct x; reflexivity. Qed.

Lemma add_nan_l (prec emax : Z) (y : spec_float) : Numpy.add prec emax S754_nan y = S754_nan.
Proof. reflexivity. Qed.

Lemma add_nan_r (prec emax : Z) (x : spec_float) : Numpy.add prec emax x S754_nan = S754_nan.
Proof. destruct x; reflexivity. Qed.

(** *** The pairwise sum *)

Section Pairwise.

Variables prec emax : Z.

Lemma lane_nan (a : Numpy.ndarray) (j b : nat) :
  (b < length a / 8)%nat ->
  nth (8 * b + j) a (S754_zero true) = S754_nan ->
  Numpy.lane prec emax a j = S754_nan.
Proof.
  intros Hb Hnan. unfold Numpy.lane. destruct b as [|b].
  - cbn [Nat.mul Nat.add] in Hnan. rewrite Hnan.
    apply fold_from_nan, add_nan_l.
  - apply fold_over_nan; auto using add_nan_l, add_nan_r.
    apply in_map_iff. exists (S b). split; [exact Hnan|]. apply in_seq. lia.
Qed.

Lemma block_sum_nan (a : Numpy.ndarray) :
  In S754_nan a -> Numpy.block_sum prec emax a = S754_nan.
Proof.
  intros Hin. unfold Numpy.block_sum. cbv zeta.
  set (k := (length a - length a mod 8)%nat).
  rewrite <- (firstn_skipn k a) in Hin. apply in_app_or in Hin as [Hin | Hin].
  - apply (In_nth _ _ (S754_zero true)) in Hin as (p & Hp & Hnth).
    rewrite length_firstn in Hp. rewrite nth_firstn in Hnth.
    destruct (Nat.ltb_spec p k) as [Hpk|]; [|lia].
    pose proof (Nat.div_mod_eq (length a) 8).
    pose proof (Nat.mod_upper_bound (length a) 8 ltac:(lia)).
    pose proof (Nat.div_mod_eq p 8).
    pose proof (Nat.mod_upper_bound p 8 ltac:(lia)).
    assert (Hlane : Numpy.lane prec emax a (p mod 8) = S754_nan).
    { apply (lane_nan a (p mod 8) (p / 8)); [unfold k in Hpk; lia|].
      now replace (8 * (p / 8) + p mod 8)%nat with p by lia. }
    assert (Hj : (p mod 8 < 8)%nat) by lia.
    destruct (p mod 8)%nat as [|[|[|[|[|[|[|[|j]]]]]]]]; try lia;
      rewrite Hlane, ?add_nan_l, ?add_nan_r; apply fold_from_nan, add_nan_l.
  - apply fold_over_nan; auto using add_nan_l, add_nan_r.
Qed.

Lemma pairwise_sum_nan (depth : nat) :
  forall a, In S754_nan a -> Numpy.pairwise_sum prec emax depth a = S754_nan.
Proof.
  induction depth as [|depth IH]; intros a Hin; cbn [Numpy.pairwise_sum]; cbv zeta;
    destruct (length a <? 8)%nat;
    try (apply fold_over_nan; now auto using add_nan_l, add_nan_r);
    destruct (length a <=? 128)%nat; try now apply block_sum_nan.
  set (n2 := (length a / 2 - (length a / 2) mod 8)%nat).
  rewrite <- (firstn_skipn n2 a) in Hin. apply in_app_or in Hin as [Hin | Hin].
  - rewrite (IH _ Hin). apply add_nan_l.
  - rewrite (IH (skipn n2 a) Hin). apply add_nan_r.
Qed.

Lemma sum_nan (w : Numpy.ndarray) : In S754_nan w -> Numpy.sum prec emax w = S754_nan.
Proof.
  intros Hin. unfold Numpy.sum. destruct w as [|x w]; [contradiction|].
  rewrite pairwise_sum_nan by exact Hin. apply add_nan_r.
Qed.

(** The bound on the number of cuts is never met: any two bounds that
    are at least the length of the array, less the 128 items of a
    block, give the same sum. *)
Lemma pairwise_sum_depth (d1 : nat) :
  forall (d2 : nat) (a : Numpy.ndarray),
    (length a <= d1 + 128)%nat -> (length a <= d2 + 128)%nat ->
    Numpy.pairwise_sum prec emax d1 a = Numpy.pairwise_sum prec emax d2 a.
Proof.
  induction d1 as [|d1 IH]; intros d2 a H1 H2.
  - destruct d2; cbn [Numpy.pairwise_sum]; cbv zeta;
      destruct (length a <? 8)%nat; try reflexivity;
      destruct (Nat.leb_spec (length a) 128); try reflexivity; lia.
  - destruct d2 as [|d2]; cbn [Numpy.pairwise_sum]; cbv zeta;
      destruct (length a <? 8)%nat; try reflexivity;
      destruct (Nat.leb_spec (length a) 128) as [|Hbig]; try reflexivity; try lia.
    pose proof (Nat.div_mod_eq (length a) 2).
    pose proof (Nat.mod_upper_bound (length a) 2 ltac:(lia)).
    pose proof (Nat.div_mod_eq (length a / 2) 8).
    pose proof (Nat.mod_upper_bound (length a / 2) 8 ltac:(lia)).
    f_equal; apply IH; rewrite ?length_firstn, ?length_skipn; lia.
Qed.

End Pairwise.

(** A NaN anywhere in a window makes its four statistics NaN. *)
Lemma nan_statistics (prec emax : Z) (w : Numpy.ndarray) :
  In S754_nan w ->
  Numpy.sum prec emax w = S754_nan /\ Numpy.mean prec emax w = S754_nan
  /\ min_of w = S754_nan /\ max_of w = S754_nan.
Proof.
  intros Hin.
  pose proof (sum_nan prec emax w Hin) as Hs.
  repeat split.
  - exact Hs.
  - unfold Numpy.mean. now rewrite Hs.
  - unfold min_of. destruct w as [|x xs]; [contradiction|]. cbn [hd tl].
    destruct Hin as [-> | Hin].
    + apply fold_from_nan, minimum_nan_l.
    + apply fold_over_nan; auto using minimum_nan_l, minimum_nan_r.
  - unfold max_of. destruct w as [|x xs]; [contradiction|]. cbn [hd tl].
    destruct Hin as [-> | Hin].
    + apply fold_from_nan, maximum_nan_l.
    + apply fold_over_nan; auto using maximum_nan_l, maximum_nan_r.
Qed.

(** The comparison of two numbers that are not NaN is a total preorder. *)

Lemma SFleb_refl (x : spec_float) : Numpy.isnan x = false -> SFleb x x = true.
Proof.
  intros H. destruct x as [s|s| |s m e]; try discriminate H; unfold SFleb, SFcompare;
    try destruct s; try reflexivity; compare_cases.
Qed.

Lemma SFltb_leb (x y : spec_float) : SFltb x y = true -> SFleb x y = true.
Proof. unfold SFltb, SFleb. destruct (SFcompare x y) as [[]|]; congruence. Qed.

Lemma SFleb_total (x y : spec_float) :
  Numpy.isnan x = false -> Numpy.isnan y = false -> SFltb x y = false -> SFleb y x = true.
Proof.
  intros Hx Hy. unfold SFltb, SFleb.
  destruct x as [s1|s1| |s1 m1 e1]; try discriminate Hx;
    destruct y as [s2|s2| |s2 m2 e2]; try discriminate Hy;
    unfold SFcompare; try destruct s1; try destruct s2; intros H; try reflexivity;
    try discriminate H; compare_cases.
Qed.

Lemma SFleb_trans (x y z : spec_float) :
  SFleb x y = true -> SFleb y z = true -> SFleb x z = true.
Proof.
  unfold SFleb.
  destruct x as [s1|s1| |s1 m1 e1]; destruct y as [s2|s2| |s2 m2 e2];
    destruct z as [s3|s3| |s3 m3 e3]; unfold SFcompare;
    try destruct s1; try destruct s2; try destruct s3; intros H1 H2;
    try reflexivity; try discriminate H1; try discriminate H2; compare_cases.
Qed.

Lemma not_nan (x : spec_float) : x <> S754_nan -> Numpy.isnan x = false.
Proof. destruct x; cbn; congruence. Qed.

Lemma fold_minimum_in (xs : list spec_float) :
  forall acc, In (fold_left Numpy.minimum xs acc) (acc :: xs).
Proof.
  induction xs as [|x xs IH]; intros acc; [now left|].
  cbn [fold_left]. destruct (IH (Numpy.minimum acc x)) as [H | H].
  - rewrite <- H. unfold Numpy.minimum.
    destruct (SFltb acc x || Numpy.isnan acc)%bool; [now left | now right; left].
  - now right; right.
Qed.

Lemma fold_maximum_in (xs : list spec_float) :
  forall acc, In (fold_left Numpy.maximum xs acc) (acc :: xs).
Proof.
  induction xs as [|x xs IH]; intros acc; [now left|].
  cbn [fold_left]. destruct (IH (Numpy.maximum acc x)) as [H | H].
  - rewrite <- H. unfold Numpy.maximum.
    destruct (SFltb x acc || Numpy.isnan acc)%bool; [now left | now right; left].
  - now right; right.
Qed.

Lemma fold_minimum_least (xs : list spec_float) :
  forall acc,
    Numpy.isnan acc = false -> (forall x, In x xs -> Numpy.isnan x = false) ->
    let r := fold_left Numpy.minimum xs acc in
    SFleb r acc = true /\ forall x, In x xs -> SFleb r x = true.
Proof.
  induction xs as [|x xs IH]; intros acc Hacc Hxs r.
  - split; [now apply SFleb_refl | contradiction].
  - subst r. cbn [fold_left].
    assert (Hx : Numpy.isnan x = false) by (apply Hxs; now left).
    assert (Hm : Numpy.isnan (Numpy.minimum acc x) = false
                 /\ SFleb (Numpy.minimum acc x) acc = true
                 /\ SFleb (Numpy.minimum acc x) x = true).
    { unfold Numpy.minimum. rewrite Hacc, orb_false_r.
      destruct (SFltb acc x) eqn:E; repeat split;
        auto using SFleb_refl, SFltb_leb, SFleb_total. }
    destruct Hm as (Hn & Ha & Hb).
    destruct (IH (Numpy.minimum acc x) Hn (fun y Hy => Hxs y (or_intror Hy))) as [H1 H2].
    split; [eauto using SFleb_trans|].
    intros y [<- | Hy]; [eauto using SFleb_trans | now apply H2].
Qed.

Lemma fold_maximum_greatest (xs : list spec_float) :
  forall acc,
    Numpy.isnan acc = false -> (forall x, In x xs -> Numpy.isnan x = false) ->
    let r := fold_left Numpy.maximum xs acc in
    SFleb acc r = true /\ forall x, In x xs -> SFleb x r = true.
Proof.
  induction xs as [|x xs IH]; intros acc Hacc Hxs r.
  - split; [now apply SFleb_refl | contradiction].
  - subst r. cbn [fold_left].
    assert (Hx : Numpy.isnan x = false) by (apply Hxs; now left).
    assert (Hm : Numpy.isnan (Numpy.maximum acc x) = false
                 /\ SFleb acc (Numpy.maximum acc x) = true
                 /\ SFleb x (Numpy.maximum acc x) = true).
    { unfold Numpy.maximum. rewrite Hacc, orb_false_r.
      destruct (SFltb x acc) eqn:E; repeat split;
        auto using SFleb_refl, SFltb_leb, SFleb_total. }
    destruct Hm as (Hn & Ha & Hb).
    destruct (IH (Numpy.maximum acc x) Hn (fun y Hy => Hxs y (or_intror Hy))) as [H1 H2].
    split; [eauto using SFleb_trans|].
    intros y [<- | Hy]; [eauto using SFleb_trans | now apply H2].
Qed.

(** Over a window without NaN, [min_of] and [max_of] are members of the
    window that bound all of it. *)
Lemma min_max_bounds (w : Numpy.ndarray) :
  nonempty w = true ->
  In (min_of w) w /\ In (max_of w) w
  /\ (~ In S754_nan w ->
      forall x, In x w -> SFleb (min_of w) x = true /\ SFleb x (max_of w) = true).
Proof.
  destruct w as [|a xs]; [discriminate|]. intros _. unfold min_of, max_of. cbn [hd tl].
  split; [apply fold_minimum_in|]. split; [apply fold_maximum_in|].
  intros Hnan.
  assert (Ha : Numpy.isnan a = false) by (apply not_nan; intros ->; apply Hnan; now left).
  assert (Hxs : forall x, In x xs -> Numpy.isnan x = false).
  { intros x Hx. apply not_nan. intros ->. apply Hnan. now right. }
  destruct (fold_minimum_least xs a Ha Hxs) as [L1 L2].
  destruct (fold_maximum_greatest xs a Ha Hxs) as [G1 G2].
  intros x [<- | Hx]; split; auto.
Qed.

(** ** One call of [get_yearly_precipitation] *)

Section Run.

Variable utcoffset : Z -> Z.
Variables prec emax : Z.
Variable coord : Type.
Variable weather_api : string -> packet coord -> result (list response).

(** Unless the dates fail to parse, exactly one request is made, and
    the answer to it decides the result. *)
Lemma get_yearly_precipitation_run (ys ye : Z) (ll : coord * coord) (log : network coord) :
  get_yearly_precipitation utcoffset prec emax coord weather_api ys ye ll log
  = match process_dates utcoffset ys ye with
    | Raise e => (Raise e, log)
    | Return dates =>
        (outcome prec emax (weather_api endpoint (request ys ye ll)) dates ys ye,
         log ++ [(endpoint, request ys ye ll)])
    end.
Proof.
  unfold get_yearly_precipitation, send_request, bind, lift, try_except,
    call_weather_api, ret, outcome, set_start_date, set_end_date, request.
  cbn [year_start year_end latitude longitude daily start_date end_date].
  destruct (process_dates utcoffset ys ye) as [dates|e]; [|reflexivity].
  destruct (weather_api endpoint _) as [[|first rest]|e]; try reflexivity.
  cbn. destruct (Daily_Variables first); reflexivity.
Qed.

End Run.

(** ** Tables *)

Lemma length_windows (a : Numpy.ndarray) (ds : list nat) :
  forall start, length (windows a start ds) = length ds.
Proof. induction ds as [|d ds IH]; intros start; cbn; [reflexivity | now rewrite IH]. Qed.

Lemma nrows_table (prec emax : Z) (ys : list Z) (ws : list Numpy.ndarray) :
  nrows (table prec emax ys ws) = length ys.
Proof. cbn. apply length_map. Qed.

Lemma columns_table (prec emax : Z) (ys : list Z) (ws : list Numpy.ndarray) :
  columns (table prec emax ys ws)
  = ["year"; "precipitation_sum"; "precipitation_daily_avg"; "precipitation_min";
     "precipitation_max"]%string.
Proof. reflexivity. Qed.

Lemma iloc_table (prec emax : Z) (ys : list Z) (ws : list Numpy.ndarray)
      (j : nat) (y : Z) (w : Numpy.ndarray) :
  nth_error ys j = Some y -> nth_error ws j = Some w ->
  iloc (table prec emax ys ws) j = Some (row_of prec emax y w).
Proof.
  intros Hy Hw. unfold iloc. rewrite nrows_table.
  replace (j <? length ys)%nat with true
    by (symmetry; apply Nat.ltb_lt, nth_error_Some; congruence).
  unfold table, DataFrame_of_dict, across, cells.
  cbn [year precipitation_sum precipitation_daily_avg precipitation_min precipitation_max].
  rewrite !nth_error_map, Hy, Hw. reflexivity.
Qed.

(** ** The lengths of the windows against the calendar *)

Lemma window_one_short (y : Z) : Z.of_nat (window_length y) = calendar_length y - 1.
Proof.
  rewrite calendar_length_leap. unfold window_length.
  destruct (Datetime.is_leap y); lia.
Qed.

Lemma windows_short_by_count (years : list Z) :
  Z.of_nat (list_sum (map window_length years))
  = calendar_days years - Z.of_nat (length years).
Proof.
  unfold calendar_days. induction years as [|y years IH]; [reflexivity|].
  cbn [map fold_right length].
  change (list_sum (window_length y :: map window_length years))
    with (window_length y + list_sum (map window_length years))%nat.
  pose proof (window_one_short y). lia.
Qed.

Lemma list_sum_removelast (ds : list nat) : (list_sum (removelast ds) <= list_sum ds)%nat.
Proof.
  induction ds as [|d ds IH]; [reflexivity|].
  destruct ds as [|d' ds']; [cbn; lia|].
  change (removelast (d :: d' :: ds')) with (d :: removelast (d' :: ds')).
  set (r := removelast (d' :: ds')) in *. set (t := d' :: ds') in *.
  change (list_sum (d :: r)) with (d + list_sum r)%nat.
  change (list_sum (d :: t)) with (d + list_sum t)%nat. lia.
Qed.

Lemma window_lengths_positive (years : list Z) :
  Forall (fun d => (0 < d)%nat) (map window_length years).
Proof.
  apply Forall_forall. intros d Hd. apply in_map_iff in Hd as (y & <- & _).
  pose proof (window_length_bounds y). lia.
Qed.

Lemma range_nonempty (ys ye : Z) : ys <= ye -> map window_length (range ys (ye + 1)) <> [].
Proof.
  intros H E. apply (f_equal (@length _)) in E.
  rewrite length_map, length_range in E. cbn in E. lia.
Qed.

(** ** Rows and windows *)

Lemma nth_error_windows (a : Numpy.ndarray) (ds : list nat) :
  forall (start k d : nat),
    nth_error ds k = Some d ->
    nth_error (windows a start ds) k
    = Some (Numpy.slice a (start + window_start ds k) (d + (start + window_start ds k))).
Proof.
  unfold window_start. induction ds as [|d0 ds IH]; intros start k d H.
  - destruct k; discriminate.
  - destruct k as [|k].
    + cbn in H. injection H as <-. cbn. now rewrite Nat.add_0_r.
    + cbn [nth_error windows firstn] in *. rewrite (IH (d0 + start)%nat k d H).
      change (list_sum (d0 :: firstn k ds)) with (d0 + list_sum (firstn k ds))%nat.
      do 2 f_equal; lia.
Qed.

Lemma firstn_of_seq (k : nat) :
  forall start n, (k <= n)%nat -> firstn k (seq start n) = seq start k.
Proof.
  induction k as [|k IH]; intros start n H; [reflexivity|].
  destruct n as [|n]; [lia|]. cbn. now rewrite IH by lia.
Qed.

Lemma firstn_range (lo hi : Z) (k : nat) :
  (k <= Z.to_nat (hi - lo))%nat -> firstn k (range lo hi) = range lo (lo + Z.of_nat k).
Proof.
  intros H. unfold range. rewrite firstn_map, firstn_of_seq by exact H.
  replace (Z.to_nat (lo + Z.of_nat k - lo)) with k by lia. reflexivity.
Qed.

Lemma bucket_row (utcoffset : Z -> Z) (prec emax : Z) (precip : Numpy.ndarray)
      (ys ye : Z) (df : DataFrame) (j : nat) (w : Numpy.ndarray) :
  countable utcoffset ys ye ->
  bucket prec emax precip (map (stamps utcoffset) (range ys (ye + 1))) ys ye = Return df ->
  nth_error (windows precip 0 (map window_length (range ys (ye + 1)))) j = Some w ->
  iloc df j = Some (row_of prec emax (ys + Z.of_nat j) w).
Proof.
  intros Hc Hrun Hw.
  pose proof (bucket_windows utcoffset prec emax precip ys ye Hc) as Hb.
  cbv zeta in Hb. rewrite Hb in Hrun.
  destruct (forallb nonempty _); [|discriminate].
  injection Hrun as <-. apply iloc_table; [|exact Hw].
  apply nth_error_range.
  assert (Hj : (j < length (windows precip 0 (map window_length (range ys (ye + 1)))))%nat)
    by (apply nth_error_Some; congruence).
  now rewrite length_windows, length_map, length_range in Hj.
Qed.



(** * The claims *)

(** C1: the day count that the loop computes for a year is not the
    number of days of that year; the code counts the midnights from
    January 1st up to, and not including, December 31st, which gives 365
    for a leap year and 364 otherwise, one less than the calendar's 366
    and 365. *)
Theorem day_count_one_short (utcoffset : Z -> Z) (y : Z) :
  pandas_year y -> steady_zone utcoffset y ->
  rbind (process_dates utcoffset y y) (comprehension days_of) = Return [window_length y]
  /\ window_length y = (if Datetime.is_leap y then 365 else 364)%nat
  /\ calendar_length y = (if Datetime.is_leap y then 366 else 365)
  /\ Z.of_nat (window_length y) = calendar_length y - 1.
Proof.
  intros Hy Hz. split; [|split; [reflexivity|split]].
  - rewrite process_dates_four_digits
      by (intros y' Hy'; unfold pandas_year in Hy; lia).
    unfold range. replace (Z.to_nat (y + 1 - y)) with 1%nat by lia.
    cbn [seq map rbind comprehension]. replace (y + Z.of_nat 0) with y by lia.
    now rewrite days_of_year.
  - apply calendar_length_leap.
  - apply window_one_short.
Qed.

Lemma steady_UTC (y : Z) : steady_zone UTC y.
Proof. unfold steady_zone, UTC. lia. Qed.

Lemma countable_UTC (ys ye : Z) : 1678 <= ys -> ye <= 2261 -> countable UTC ys ye.
Proof. intros H1 H2 y Hy. split; [unfold pandas_year; lia | apply steady_UTC]. Qed.

Lemma day_count_one_short_2001 :
  rbind (process_dates UTC 2001 2001) (comprehension days_of) = Return [364%nat]
  /\ calendar_length 2001 = 365.
Proof.
  destruct (day_count_one_short UTC 2001) as (H1 & H2 & H3 & H4).
  - unfold pandas_year. lia.
  - apply steady_UTC.
  - split; [exact H1 | exact H3].
Defined.

(** C2: on a series that has one value for each calendar day of the
    years [ys..ye], the loop does return one row per year, in ascending
    order, from contiguous windows that do not overlap; but the windows
    are one day short each, so together they cover only the series
    without its last [ye - ys + 1] values: these are skipped, and the
    windows do not reconstruct the series. *)
Theorem partition_leaves_a_tail (utcoffset : Z -> Z) (prec emax : Z)
        (precip : Numpy.ndarray) (ys ye : Z) :
  ys <= ye -> countable utcoffset ys ye ->
  Z.of_nat (length precip) = calendar_days (range ys (ye + 1)) ->
  let years := range ys (ye + 1) in
  let ws := windows precip 0 (map window_length years) in
  bucket prec emax precip (map (stamps utcoffset) years) ys ye
  = Return (table prec emax years ws)
  /\ nrows (table prec emax years ws) = Z.to_nat (ye - ys + 1)
  /\ concat ws = firstn (length precip - length years) precip
  /\ concat ws <> precip.
Proof.
  intros Hle Hc Hlen years ws.
  pose proof (windows_short_by_count years) as Hsum. fold years in Hlen.
  assert (Hn : length years = Z.to_nat (ye - ys + 1)).
  { unfold years. rewrite length_range. lia. }
  assert (Hfit : (0 + list_sum (map window_length years) <= length precip)%nat) by lia.
  destruct (windows_full precip (map window_length years) 0%nat Hfit) as [_ Hcat].
  fold ws in Hcat. cbn [skipn] in Hcat.
  assert (Hws : forallb nonempty ws = true).
  { apply windows_nonempty.
    - apply window_lengths_positive.
    - now apply range_nonempty.
    - pose proof (list_sum_removelast (map window_length years)). lia. }
  split; [|split; [|split]].
  - pose proof (bucket_windows utcoffset prec emax precip ys ye Hc) as Hb.
    cbv zeta in Hb. fold years in Hb. fold ws in Hb. now rewrite Hb, Hws.
  - now rewrite nrows_table.
  - rewrite Hcat. f_equal. lia.
  - rewrite Hcat. intros E. apply (f_equal (@length _)) in E.
    rewrite length_firstn in E. lia.
Qed.

Lemma partition_leaves_a_tail_2001 :
  let precip := repeat (f32 0) 364 ++ [f32 1] in
  bucket 24 128 precip (map (stamps UTC) (range 2001 2002)) 2001 2001
  = Return (table 24 128 [2001] [repeat (f32 0) 364])
  /\ concat (windows precip 0 (map window_length (range 2001 2002))) <> precip.
Proof.
  intros precip.
  destruct (partition_leaves_a_tail UTC 24 128 precip 2001 2001) as (H1 & H2 & H3 & H4).
  - lia.
  - apply countable_UTC; lia.
  - reflexivity.
  - split; [exact H1 | exact H4].
Defined.

(** C3: for the years 2000 to 2001 and a service that returns 731 values
    [1.0], the code returns the rows [2000, 365.0, 1.0, 1.0, 1.0] and
    [2001, 364.0, 1.0, 1.0, 1.0]: the sums are 365.0 and 364.0, not 366.0
    and 365.0. *)
Theorem two_years_of_ones :
  exists df,
    fst (get_yearly_precipitation UTC 24 128 Z (serves (repeat (f32 1) 731))
                                  2000 2001 (13, 52) [])
    = Return df
    /\ rows df = [ Some (row 2000 (f32 365) (f32 1) (f32 1) (f32 1));
                   Some (row 2001 (f32 364) (f32 1) (f32 1) (f32 1)) ]
    /\ f32 365 <> f32 366 /\ f32 364 <> f32 365.
Proof.
  eexists. split; [vm_compute; reflexivity|].
  split; [vm_compute; reflexivity|]. split; vm_compute; discriminate.
Qed.

(** C4, as it stands, fails: a series of 400 values for the single year
    2001 matches neither the calendar's 365 days nor the loop's 364, and
    the loop returns a table all the same. *)
Lemma length_mismatch_accepted :
  let precip := repeat (f32 1) 400 in
  length precip <> 365%nat /\ length precip <> 364%nat
  /\ bucket 24 128 precip (map (stamps UTC) (range 2001 2002)) 2001 2001
     = Return (table 24 128 [2001] [repeat (f32 1) 364]).
Proof.
  cbv zeta. split; [|split].
  - vm_compute. discriminate.
  - vm_compute. discriminate.
  - vm_compute. reflexivity.
Qed.

(** C4, amended: the loop compares no lengths.  Over a range of
    countable years it returns a table with one row per year as soon as
    the series is longer than what the windows of the years before the
    last take, whether or not its length is the sum of the day counts;
    it raises (the [ValueError] of the minimum of an empty array) only
    when the series is no longer than that, and then returns no table. *)
Theorem bucket_compares_no_lengths (utcoffset : Z -> Z) (prec emax : Z)
        (precip : Numpy.ndarray) (ys ye : Z) :
  ys <= ye -> countable utcoffset ys ye ->
  let years := range ys (ye + 1) in
  let ds := map window_length years in
  let run := bucket prec emax precip (map (stamps utcoffset) years) ys ye in
  ((list_sum (removelast ds) < length precip)%nat ->
   run = Return (table prec emax years (windows precip 0 ds))
   /\ nrows (table prec emax years (windows precip 0 ds)) = Z.to_nat (ye - ys + 1))
  /\ ((length precip <= list_sum (removelast ds))%nat -> run = Raise no_min).
Proof.
  intros Hle Hc years ds run.
  assert (Hiff : forallb nonempty (windows precip 0 ds) = true
                 <-> (0 + list_sum (removelast ds) < length precip)%nat).
  { apply windows_nonempty; [apply window_lengths_positive | now apply range_nonempty]. }
  pose proof (bucket_windows utcoffset prec emax precip ys ye Hc) as Hb.
  cbv zeta in Hb. fold years in Hb. fold ds in Hb. unfold run. rewrite Hb. split.
  - intros H. replace (forallb nonempty (windows precip 0 ds)) with true
      by (symmetry; apply Hiff; lia).
    split; [reflexivity|]. rewrite nrows_table. unfold years. rewrite length_range. lia.
  - intros H. destruct (forallb nonempty (windows precip 0 ds)) eqn:E; [|reflexivity].
    apply proj1 in Hiff. specialize (Hiff eq_refl). lia.
Qed.

Lemma bucket_compares_no_lengths_2001 :
  bucket 24 128 (repeat (f32 1) 400) (map (stamps UTC) (range 2001 2002)) 2001 2001
  = Return (table 24 128 [2001] (windows (repeat (f32 1) 400) 0 [364%nat]))
  /\ bucket 24 128 [] (map (stamps UTC) (range 2001 2002)) 2001 2001 = Raise no_min.
Proof.
  split.
  - apply (bucket_compares_no_lengths UTC 24 128 (repeat (f32 1) 400) 2001 2001);
      [lia | apply countable_UTC; lia | vm_compute; lia].
  - apply (bucket_compares_no_lengths UTC 24 128 [] 2001 2001);
      [lia | apply countable_UTC; lia | vm_compute; lia].
Defined.

(** C5, as it stands, fails: when the service cannot be reached, the
    call returns the empty table as its ordinary value. *)
Lemma fetch_failure_is_a_success_value :
  get_yearly_precipitation UTC 24 128 Z (unreachable "connection timed out")
                           2000 2001 (13, 52) []
  = (Return DataFrame_empty, [(endpoint, request 2000 2001 (13, 52))])
  /\ nrows DataFrame_empty = 0%nat.
Proof. split; vm_compute; reflexivity. Qed.

(** C5, amended: whenever the request is made and the client raises,
    whatever it raises, [get_yearly_precipitation] returns the empty
    table as its ordinary value; nothing is raised and the cause is
    dropped. *)
Theorem fetch_failure_swallowed (utcoffset : Z -> Z) (prec emax : Z) (coord : Type)
        (weather_api : string -> packet coord -> result (list response))
        (ys ye : Z) (ll : coord * coord) (log : network coord)
        (dates : list (Z * Z)) (cause : exn) :
  process_dates utcoffset ys ye = Return dates ->
  weather_api endpoint (request ys ye ll) = Raise cause ->
  get_yearly_precipitation utcoffset prec emax coord weather_api ys ye ll log
  = (Return DataFrame_empty, log ++ [(endpoint, request ys ye ll)])
  /\ forall e, fst (get_yearly_precipitation utcoffset prec emax coord weather_api
                                             ys ye ll log) <> Raise e.
Proof.
  intros Hd Hf. rewrite get_yearly_precipitation_run, Hd, Hf. cbn [outcome fst].
  split; [reflexivity | discriminate].
Qed.

Lemma fetch_failure_swallowed_2000 :
  get_yearly_precipitation UTC 24 128 Z (unreachable "connection timed out")
                           2000 2001 (13, 52) []
  = (Return DataFrame_empty, [] ++ [(endpoint, request 2000 2001 (13, 52))]).
Proof.
  apply (fetch_failure_swallowed UTC 24 128 Z (unreachable "connection timed out")
           2000 2001 (13, 52) [] (map (stamps UTC) (range 2000 2002))
           (ClientError "connection timed out")).
  - vm_compute. reflexivity.
  - reflexivity.
Defined.

(** C6, as it stands, fails: for the years 2020 to 2019 the request is
    made, with the dates the wrong way round, and the call returns a
    table. *)
Lemma inverted_range_is_fetched :
  get_yearly_precipitation UTC 24 128 Z (serves []) 2020 2019 (13, 52) []
  = (Return (table 24 128 [] []),
     [(endpoint,
       mk_packet 52 13 2020 2019 "precipitation_sum"
                 (Some "2020-01-01"%string) (Some "2019-12-31"%string))]).
Proof. vm_compute. reflexivity. Qed.

(** C6, amended: no range is checked.  When [year_start > year_end] the
    dates always parse (there are none), the request is made with the
    start date after the end date, and the answer of the client decides
    how the call ends, every time without a row: it returns the empty
    table if the client raises or answers with an empty list, it
    returns the five columns and no row if the first answer carries a
    daily variable, and it raises [AttributeError] if the first answer
    carries none. *)
Theorem inverted_range_unchecked (utcoffset : Z -> Z) (prec emax : Z) (coord : Type)
        (weather_api : string -> packet coord -> result (list response))
        (ys ye : Z) (ll : coord * coord) (log : network coord) :
  ye < ys ->
  get_yearly_precipitation utcoffset prec emax coord weather_api ys ye ll log
  = (match weather_api endpoint (request ys ye ll) with
     | Raise _ => Return DataFrame_empty
     | Return [] => Return DataFrame_empty
     | Return (first :: _) =>
         match Daily_Variables first with
         | [] => Raise AttributeError
         | _ :: _ => Return (table prec emax [] [])
         end
     end,
     log ++ [(endpoint, request ys ye ll)])
  /\ start_date (request ys ye ll) = Some (str ys ++ "-01-01")%string
  /\ end_date (request ys ye ll) = Some (str ye ++ "-12-31")%string
  /\ nrows (table prec emax [] []) = 0%nat
  /\ columns (table prec emax [] []) = five_columns.
Proof.
  intros H. rewrite get_yearly_precipitation_run, process_dates_empty by exact H.
  split; [|repeat split]. f_equal. unfold outcome.
  destruct (weather_api endpoint (request ys ye ll)) as [[|first rest]|e]; try reflexivity.
  destruct (Daily_Variables first) as [|precip vs]; [reflexivity|].
  unfold bucket, range.
  replace (Z.to_nat (ye - ys + 1 - 0)) with 0%nat by lia. reflexivity.
Qed.

Lemma inverted_range_unchecked_2020 :
  get_yearly_precipitation UTC 24 128 Z (serves []) 2020 2019 (13, 52) []
  = (Return (table 24 128 [] []), [] ++ [(endpoint, request 2020 2019 (13, 52))])
  /\ get_yearly_precipitation UTC 24 128 Z (unreachable "connection timed out")
                              2020 2019 (13, 52) []
     = (Return DataFrame_empty, [] ++ [(endpoint, request 2020 2019 (13, 52))])
  /\ get_yearly_precipitation UTC 24 128 Z (fun _ _ => Return [mk_response []])
                              2020 2019 (13, 52) []
     = (Raise AttributeError, [] ++ [(endpoint, request 2020 2019 (13, 52))]).
Proof.
  split; [|split].
  - apply (inverted_range_unchecked UTC 24 128 Z (serves []) 2020 2019 (13, 52) []). lia.
  - apply (inverted_range_unchecked UTC 24 128 Z (unreachable "connection timed out")
             2020 2019 (13, 52) []). lia.
  - apply (inverted_range_unchecked UTC 24 128 Z (fun _ _ => Return [mk_response []])
             2020 2019 (13, 52) []). lia.
Defined.



(** C8: on a series with one value per calendar day of 2001 and 2002,
    a NaN on December 31st, 2001 does not reach the row of 2001, whose
    window ends the day before, and turns the four statistics of 2002
    into NaN; a NaN on December 31st, 2002 reaches no row at all. *)
Theorem nan_lands_in_the_next_year :
  let dec31_2001 := repeat (f32 1) 364 ++ [S754_nan] ++ repeat (f32 2) 365 in
  let dec31_2002 := repeat (f32 1) 365 ++ repeat (f32 2) 364 ++ [S754_nan] in
  Z.of_nat (length dec31_2001) = calendar_days [2001; 2002]
  /\ Z.of_nat (length dec31_2002) = calendar_days [2001; 2002]
  /\ nth_error dec31_2001 (Z.to_nat (calendar_length 2001 - 1)) = Some S754_nan
  /\ nth_error dec31_2002 (Z.to_nat (calendar_days [2001; 2002] - 1)) = Some S754_nan
  /\ (exists df,
         fst (get_yearly_precipitation UTC 24 128 Z (serves dec31_2001) 2001 2002 (13, 52) [])
         = Return df
         /\ rows df = [ Some (row 2001 (f32 364) (f32 1) (f32 1) (f32 1));
                        Some (row 2002 S754_nan S754_nan S754_nan S754_nan) ])
  /\ (exists df,
         fst (get_yearly_precipitation UTC 24 128 Z (serves dec31_2002) 2001 2002 (13, 52) [])
         = Return df
         /\ rows df = [ Some (row_of 24 128 2001 (repeat (f32 1) 364));
                        Some (row_of 24 128 2002 (f32 1 :: repeat (f32 2) 363)) ]
         /\ ~ In S754_nan (repeat (f32 1) 364)
         /\ ~ In S754_nan (f32 1 :: repeat (f32 2) 363)).
Proof.
  cbv zeta. repeat split; try (vm_compute; reflexivity).
  - eexists. split; vm_compute; reflexivity.
  - eexists. split; [vm_compute; reflexivity|]. split; [vm_compute; reflexivity|].
    split; intros H.
    + apply repeat_spec in H. discriminate.
    + destruct H as [H | H]; [discriminate|]. apply repeat_spec in H. discriminate.
Qed.

(** C9, as it stands, fails: for the same arguments, the table returned
    when the client raises has no column, the table returned when the
    client answers over an empty range has five, so a caller can tell
    one from the other. *)
Lemma failure_differs_from_empty_range :
  fst (get_yearly_precipitation UTC 24 128 Z (unreachable "connection timed out")
                                2020 2019 (13, 52) [])
  = Return DataFrame_empty
  /\ fst (get_yearly_precipitation UTC 24 128 Z (serves []) 2020 2019 (13, 52) [])
     = Return (table 24 128 [] [])
  /\ columns DataFrame_empty <> columns (table 24 128 [] [])
  /\ fst (get_yearly_precipitation UTC 24 128 Z (unreachable "connection timed out")
                                   2020 2019 (13, 52) [])
     <> fst (get_yearly_precipitation UTC 24 128 Z (serves []) 2020 2019 (13, 52) []).
Proof.
  split; [vm_compute; reflexivity|]. split; [vm_compute; reflexivity|].
  split; vm_compute; discriminate.
Qed.

(** C9, amended: whenever the request is made and the client raises,
    [get_yearly_precipitation] does not raise and returns the empty
    [DataFrame], without rows and without columns.  A successful call
    over an empty range returns no row either, but its table has the
    five columns, and by them differs from the table of a failure. *)
Theorem fetch_failure_empty_frame (utcoffset : Z -> Z) (prec emax : Z) (coord : Type)
        (weather_api : string -> packet coord -> result (list response))
        (ys ye : Z) (ll : coord * coord) (log : network coord)
        (dates : list (Z * Z)) (cause : exn) :
  process_dates utcoffset ys ye = Return dates ->
  weather_api endpoint (request ys ye ll) = Raise cause ->
  (exists df,
      fst (get_yearly_precipitation utcoffset prec emax coord weather_api ys ye ll log)
      = Return df
      /\ nrows df = 0%nat /\ columns df = [])
  /\ (forall (answers : string -> packet coord -> result (list response))
             (ys' ye' : Z) (ll' : coord * coord) (log' : network coord)
             (precip : Numpy.ndarray) (vs : list Numpy.ndarray) (rest : list response),
         ye' < ys' ->
         answers endpoint (request ys' ye' ll') = Return (mk_response (precip :: vs) :: rest) ->
         exists df',
           fst (get_yearly_precipitation utcoffset prec emax coord answers ys' ye' ll' log')
           = Return df'
           /\ nrows df' = 0%nat
           /\ columns df'
              = ["year"; "precipitation_sum"; "precipitation_daily_avg";
                 "precipitation_min"; "precipitation_max"]%string
           /\ df' <> DataFrame_empty).
Proof.
  intros Hd Hf. split.
  - exists DataFrame_empty. rewrite get_yearly_precipitation_run, Hd, Hf.
    repeat split.
  - intros answers ys' ye' ll' log' precip vs rest Hlt Ha.
    exists (table prec emax [] []).
    rewrite get_yearly_precipitation_run, process_dates_empty by exact Hlt.
    rewrite Ha. cbn [fst outcome Daily_Variables]. split.
    + unfold bucket, range. replace (Z.to_nat (ye' - ys' + 1 - 0)) with 0%nat by lia.
      reflexivity.
    + repeat split. discriminate.
Qed.

Lemma fetch_failure_empty_frame_2000 :
  exists df,
    fst (get_yearly_precipitation UTC 24 128 Z (unreachable "connection timed out")
                                  2000 2001 (13, 52) [])
    = Return df
    /\ nrows df = 0%nat /\ columns df = [].
Proof.
  apply (fetch_failure_empty_frame UTC 24 128 Z (unreachable "connection timed out")
           2000 2001 (13, 52) [] (map (stamps UTC) (range 2000 2002))
           (ClientError "connection timed out")).
  - vm_compute. reflexivity.
  - reflexivity.
Defined.

(** C10: the request that [get_yearly_precipitation] hands to the client
    carries the first element of the coordinate pair as its longitude
    and the second as its latitude; one such request is made unless the
    dates fail to parse, in which case none is. *)
Theorem longitude_comes_first (utcoffset : Z -> Z) (prec emax : Z) (coord : Type)
        (weather_api : string -> packet coord -> result (list response))
        (ys ye : Z) (ll : coord * coord) (log : network coord) :
  match process_dates utcoffset ys ye with
  | Return _ =>
      exists p,
        snd (get_yearly_precipitation utcoffset prec emax coord weather_api ys ye ll log)
        = log ++ [(endpoint, p)]
        /\ longitude p = fst ll /\ latitude p = snd ll
  | Raise e =>
      get_yearly_precipitation utcoffset prec emax coord weather_api ys ye ll log
      = (Raise e, log)
  end.
Proof.
  rewrite get_yearly_precipitation_run.
  destruct (process_dates utcoffset ys ye) as [dates|e]; [|reflexivity].
  exists (request ys ye ll). repeat split.
Qed.


(** * Further properties of the code *)

(** ** Years that do not parse *)

Lemma comprehension_raises {A B : Type} (f : A -> result B) (P : exn -> Prop)
      (xs : list A) :
  (forall x, In x xs -> (exists y, f x = Return y) \/ (exists e, f x = Raise e /\ P e)) ->
  (exists x e, In x xs /\ f x = Raise e) ->
  exists e, comprehension f xs = Raise e /\ P e.
Proof.
  induction xs as [|x xs IH]; intros Hall (x0 & e0 & Hin & Hx0); [contradiction|].
  cbn [comprehension].
  destruct (Hall x (or_introl eq_refl)) as [(y & Hx) | (e & Hx & He)]; rewrite Hx.
  - cbn [rbind]. destruct IH as (e & Hc & He).
    + intros; apply Hall; now right.
    + destruct Hin as [-> | Hin]; [congruence | now exists x0, e0].
    + exists e. now rewrite Hc.
  - now exists e.
Qed.

Lemma strptime_cases (mm dd y : Z) :
  (1000 <= y <= 9999 /\ Datetime.strptime_mdY mm dd y = Return (Datetime.mk_datetime y mm dd))
  \/ (~ 1000 <= y <= 9999
      /\ exists msg, Datetime.strptime_mdY mm dd y = Raise (ValueError msg)).
Proof.
  unfold Datetime.strptime_mdY. cbv zeta.
  destruct (1000 <=? y) eqn:E1; destruct (y <=? 9999) eqn:E2; cbn [andb];
    rewrite ?Z.leb_le, ?Z.leb_gt in *; [left; split; [lia | reflexivity] | right ..];
    (split; [lia|]); destruct (9999 <? y); eexists; reflexivity.
Qed.

(** A year of the range that is not written with four digits makes
    [get_yearly_precipitation] raise a [ValueError], that of
    [strptime], and no request is made. *)
Theorem unparsable_year_raises_before_request
        (utcoffset : Z -> Z) (prec emax : Z) (coord : Type)
        (weather_api : string -> packet coord -> result (list response))
        (ys ye : Z) (ll : coord * coord) (log : network coord) :
  (exists y, ys <= y <= ye /\ ~ 1000 <= y <= 9999) ->
  exists msg,
    get_yearly_precipitation utcoffset prec emax coord weather_api ys ye ll log
    = (Raise (ValueError msg), log).
Proof.
  intros (y & Hy & Hbad). rewrite get_yearly_precipitation_run.
  destruct (comprehension_raises
              (fun i =>
                 rbind (Datetime.strptime_mdY 1 1 i)
                       (fun a => rbind (Datetime.strptime_mdY 12 31 i)
                                       (fun b => Return (Datetime.timestamp utcoffset a,
                                                         Datetime.timestamp utcoffset b))))
              (fun e => exists msg, e = ValueError msg)
              (range ys (ye + 1))) as (e & He & msg & ->).
  - intros x _. destruct (strptime_cases 1 1 x) as [[Hx H1] | [Hx (m & H1)]]; rewrite H1.
    + left. destruct (strptime_cases 12 31 x) as [[_ H2] | [Hx' _]]; [|contradiction].
      rewrite H2. eexists. reflexivity.
    + right. exists (ValueError m). split; [reflexivity | now exists m].
  - destruct (strptime_cases 1 1 y) as [[Hx _] | [_ (m & H1)]]; [contradiction|].
    exists y, (ValueError m). split; [apply in_range; lia | now rewrite H1].
  - exists msg. unfold process_dates. now rewrite He.
Qed.

Lemma unparsable_year_raises_before_request_999 :
  exists msg,
    get_yearly_precipitation UTC 24 128 Z (serves []) 999 1001 (13, 52) []
    = (Raise (ValueError msg), []).
Proof.
  apply (unparsable_year_raises_before_request UTC 24 128 Z (serves []) 999 1001 (13, 52) []).
  exists 999. lia.
Defined.

(** ** One round trip *)

(** Whatever the arguments and whatever the client answers, a call
    leaves the earlier requests as they were and adds at most one, which
    goes to the archive endpoint and asks for the daily precipitation
    sums from January 1st of [year_start] to December 31st of
    [year_end]. *)
Theorem at_most_one_request (utcoffset : Z -> Z) (prec emax : Z) (coord : Type)
        (weather_api : string -> packet coord -> result (list response))
        (ys ye : Z) (ll : coord * coord) (log : network coord) :
  exists sent,
    snd (get_yearly_precipitation utcoffset prec emax coord weather_api ys ye ll log)
    = log ++ sent
    /\ (length sent <= 1)%nat
    /\ forall url p,
        In (url, p) sent ->
        url = "https://archive-api.open-meteo.com/v1/archive"%string
        /\ daily p = "precipitation_sum"%string
        /\ start_date p = Some (str ys ++ "-01-01")%string
        /\ end_date p = Some (str ye ++ "-12-31")%string
        /\ year_start p = ys /\ year_end p = ye.
Proof.
  rewrite get_yearly_precipitation_run.
  destruct (process_dates utcoffset ys ye) as [dates|e].
  - exists [(endpoint, request ys ye ll)]. split; [reflexivity|]. split; [cbn; lia|].
    intros url p [H | []]. injection H as <- <-. repeat split.
  - exists []. split; [now rewrite app_nil_r|]. split; [cbn; lia|]. intros url p [].
Qed.

(** ** The shape of the table *)

Section Shape.

Variables prec emax : Z.
Variable precip : Numpy.ndarray.
Variable dates : list (Z * Z).
Variable start_year : Z.

Lemma loop_body_appends (i : Z) (a a' : nat) (d d' : df_data) :
  loop_body prec emax precip dates start_year i (a, d) = Return (a', d') ->
  year d' = year d ++ [i + start_year]
  /\ length (precipitation_sum d') = S (length (precipitation_sum d))
  /\ length (precipitation_daily_avg d') = S (length (precipitation_daily_avg d))
  /\ length (precipitation_min d') = S (length (precipitation_min d))
  /\ length (precipitation_max d') = S (length (precipitation_max d)).
Proof.
  unfold loop_body. destruct (getitem dates i) as [date|]; [|discriminate].
  cbn [rbind]. destruct (days_of date) as [days|]; [|discriminate]. cbn [rbind].
  destruct (Numpy.slice precip a (days + a)) as [|x w]; [discriminate|].
  cbn. intros H. injection H as _ <-. cbn. rewrite !length_app. cbn.
  repeat split; lia.
Qed.

Lemma for_each_appends (xs : list Z) :
  forall (a a' : nat) (d d' : df_data),
    for_each xs (loop_body prec emax precip dates start_year) (a, d) = Return (a', d') ->
    year d' = year d ++ map (fun i => i + start_year) xs
    /\ length (precipitation_sum d') = (length (precipitation_sum d) + length xs)%nat
    /\ length (precipitation_daily_avg d')
       = (length (precipitation_daily_avg d) + length xs)%nat
    /\ length (precipitation_min d') = (length (precipitation_min d) + length xs)%nat
    /\ length (precipitation_max d') = (length (precipitation_max d) + length xs)%nat.
Proof.
  induction xs as [|x xs IH]; intros a a' d d' H.
  - cbn in H. injection H as _ <-. cbn. rewrite app_nil_r. repeat split; lia.
  - cbn [for_each] in H.
    destruct (loop_body prec emax precip dates start_year x (a, d)) as [[a1 d1]|] eqn:E;
      [|discriminate].
    cbn [rbind] in H. apply loop_body_appends in E. apply IH in H.
    destruct E as (E0 & E1 & E2 & E3 & E4). destruct H as (H0 & H1 & H2 & H3 & H4).
    rewrite H0, E0, <- app_assoc. cbn [map length app]. repeat split; lia.
Qed.

End Shape.

Lemma shifted_range (ys ye : Z) :
  map (fun i => i + ys) (range 0 (ye - ys + 1)) = range ys (ye + 1).
Proof.
  unfold range. rewrite map_map.
  replace (Z.to_nat (ye - ys + 1 - 0)) with (Z.to_nat (ye + 1 - ys)) by lia.
  apply map_ext. intros; lia.
Qed.

(** Whatever the zone, the years, the client and the series, a table
    that [get_yearly_precipitation] returns is either the empty one or
    has the five columns, all of one length, with the years from
    [year_start] to [year_end] in ascending order, one row each. *)
Theorem returned_table_shape (utcoffset : Z -> Z) (prec emax : Z) (coord : Type)
        (weather_api : string -> packet coord -> result (list response))
        (ys ye : Z) (ll : coord * coord) (log : network coord) (df : DataFrame) :
  fst (get_yearly_precipitation utcoffset prec emax coord weather_api ys ye ll log)
  = Return df ->
  df = DataFrame_empty
  \/ (columns df = five_columns
      /\ nrows df = Z.to_nat (ye - ys + 1)
      /\ exists sums avgs mins maxs,
          df = DataFrame_of_dict (mk_df_data (range ys (ye + 1)) sums avgs mins maxs)
          /\ length sums = nrows df /\ length avgs = nrows df
          /\ length mins = nrows df /\ length maxs = nrows df).
Proof.
  rewrite get_yearly_precipitation_run.
  destruct (process_dates utcoffset ys ye) as [dates|e]; [|discriminate].
  cbn [fst]. unfold outcome.
  destruct (weather_api endpoint (request ys ye ll)) as [[|first rest]|e];
    try (intros H; injection H as <-; now left).
  destruct (Daily_Variables first) as [|precip vs]; [discriminate|].
  unfold bucket.
  destruct (for_each _ _ _) as [[a d]|e] eqn:E; [|discriminate].
  cbn [rbind snd]. intros H. injection H as <-. right.
  apply for_each_appends in E. cbn [year precipitation_sum precipitation_daily_avg
    precipitation_min precipitation_max length app Nat.add] in E.
  destruct E as (E0 & E1 & E2 & E3 & E4). rewrite shifted_range in E0.
  rewrite length_range in E1, E2, E3, E4.
  assert (Hn : nrows (DataFrame_of_dict d) = Z.to_nat (ye - ys + 1)).
  { cbn. rewrite length_map, E0, length_range. lia. }
  split; [reflexivity|]. split; [exact Hn|].
  exists (precipitation_sum d), (precipitation_daily_avg d), (precipitation_min d),
    (precipitation_max d).
  rewrite Hn. split; [destruct d; cbn in *; now subst|]. repeat split; lia.
Qed.

Lemma returned_table_shape_2001 :
  let df := table 24 128 [2001] [repeat (f32 1) 364] in
  df = DataFrame_empty
  \/ (columns df = five_columns
      /\ nrows df = Z.to_nat (2001 - 2001 + 1)
      /\ exists sums avgs mins maxs,
          df = DataFrame_of_dict (mk_df_data (range 2001 (2001 + 1)) sums avgs mins maxs)
          /\ length sums = nrows df /\ length avgs = nrows df
          /\ length mins = nrows df /\ length maxs = nrows df).
Proof.
  apply (returned_table_shape UTC 24 128 Z (serves (repeat (f32 1) 400))
                              2001 2001 (13, 52) []).
  vm_compute. reflexivity.
Defined.

(** ** Least and greatest *)

(** When [np.min] and [np.max] return on a window without NaN, the
    minimum is not above the maximum. *)
Theorem min_below_max (w : Numpy.ndarray) (lo hi : spec_float) :
  Numpy.min w = Return lo -> Numpy.max w = Return hi -> ~ In S754_nan w ->
  SFleb lo hi = true.
Proof.
  intros Hlo Hhi Hnan. destruct w as [|x xs]; [discriminate|].
  destruct (min_max_bounds (x :: xs) eq_refl) as (_ & _ & Hb).
  destruct (Hb Hnan x (or_introl eq_refl)) as [H1 H2].
  cbn in Hlo, Hhi. injection Hlo as <-. injection Hhi as <-.
  exact (SFleb_trans _ _ _ H1 H2).
Qed.

Lemma min_below_max_example :
  SFleb (f32 1) (f32 4) = true.
Proof.
  apply (min_below_max [f32 3; f32 1; f32 4; f32 2] (f32 1) (f32 4));
    [reflexivity | reflexivity | vm_compute; intuition discriminate].
Defined.

(** ** The zone of the machine *)

Lemma countable_four_digits (utcoffset : Z -> Z) (ys ye : Z) :
  countable utcoffset ys ye -> forall y, ys <= y <= ye -> 1000 <= y <= 9999.
Proof. intros Hc y Hy. destruct (Hc y Hy) as [Hp _]. unfold pandas_year in Hp. lia. Qed.

(** Between two zones that each keep one offset over every year of the
    range, nothing changes: the same request is made and the same
    result comes back. *)
Theorem steady_zones_agree (u1 u2 : Z -> Z) (prec emax : Z) (coord : Type)
        (weather_api : string -> packet coord -> result (list response))
        (ys ye : Z) (ll : coord * coord) (log : network coord) :
  countable u1 ys ye -> countable u2 ys ye ->
  get_yearly_precipitation u1 prec emax coord weather_api ys ye ll log
  = get_yearly_precipitation u2 prec emax coord weather_api ys ye ll log.
Proof.
  intros H1 H2. rewrite !get_yearly_precipitation_run.
  rewrite (process_dates_four_digits u1) by (now apply countable_four_digits with u1).
  rewrite (process_dates_four_digits u2) by (now apply countable_four_digits with u2).
  f_equal. unfold outcome.
  destruct (weather_api endpoint (request ys ye ll)) as [[|first rest]|e]; try reflexivity.
  destruct (Daily_Variables first) as [|precip vs]; [reflexivity|].
  pose proof (bucket_windows u1 prec emax precip ys ye H1) as B1.
  pose proof (bucket_windows u2 prec emax precip ys ye H2) as B2.
  cbv zeta in B1, B2. now rewrite B1, B2.
Qed.

Lemma steady_zones_agree_2000 :
  get_yearly_precipitation UTC 24 128 Z (serves (repeat (f32 1) 731)) 2000 2001 (13, 52) []
  = get_yearly_precipitation (fun _ => 3600) 24 128 Z (serves (repeat (f32 1) 731))
                             2000 2001 (13, 52) [].
Proof.
  apply (steady_zones_agree UTC (fun _ => 3600) 24 128 Z (serves (repeat (f32 1) 731))
                            2000 2001 (13, 52) []).
  - apply countable_UTC; lia.
  - intros y Hy. split; [unfold pandas_year; lia | unfold steady_zone; lia].
Defined.

Lemma date_range_left_inexact (start freq r : Z) (n : nat) :
  0 < r < freq ->
  length (Pandas.date_range_left start (start + Z.of_nat n * freq + r) freq) = S n.
Proof.
  intros Hr. unfold Pandas.date_range_left, Pandas.generate_range.
  replace (start =? start + Z.of_nat n * freq + r) with false
    by (symmetry; apply Z.eqb_neq; nia).
  replace (start + Z.of_nat n * freq + r <? start) with false
    by (symmetry; apply Z.ltb_ge; nia).
  replace ((start + Z.of_nat n * freq + r - start) / freq) with (Z.of_nat n)
    by (apply Z.div_unique with r; lia).
  rewrite Nat2Z.id, seq_S, map_app. cbn [map Nat.add].
  rewrite last_last.
  replace (start + Z.of_nat n * freq =? start + Z.of_nat n * freq + r) with false
    by (symmetry; apply Z.eqb_neq; lia).
  rewrite length_app, length_map, length_seq. cbn. lia.
Qed.

(** The day count depends on the zone of the machine: where the offset
    on December 31st is smaller than on January 1st, by less than a day,
    the grid has one point more and [days] is the true length of the
    year, 365 or 366. *)
Theorem offset_drop_adds_a_day (utcoffset : Z -> Z) (y : Z) :
  pandas_year y ->
  -86400 <= utcoffset (Datetime.wall_seconds (dec31 y)) ->
  utcoffset (Datetime.wall_seconds (dec31 y)) < utcoffset (Datetime.wall_seconds (jan1 y)) ->
  utcoffset (Datetime.wall_seconds (jan1 y)) <= 86400 ->
  utcoffset (Datetime.wall_seconds (jan1 y)) - utcoffset (Datetime.wall_seconds (dec31 y))
  < 86400 ->
  days_of (stamps utcoffset y) = Return (S (window_length y))
  /\ Z.of_nat (S (window_length y)) = calendar_length y.
Proof.
  intros Hy Hlo Hdrop Hhi Hday. split; [|pose proof (window_one_short y); lia].
  unfold days_of, stamps, Datetime.timestamp. cbn [fst snd].
  rewrite dec31_after_jan1 in *.
  pose proof (jan1_bounds utcoffset y Hy) as Hb. pose proof (window_length_bounds y) as Hw.
  set (w := Datetime.wall_seconds (jan1 y)) in *.
  set (n := window_length y) in *.
  set (o1 := utcoffset w) in *. set (o2 := utcoffset (w + Z.of_nat n * 86400)) in *.
  unfold Pandas.to_datetime_s.
  assert (H1 : ((- 2 ^ 63 <? (w - o1) * 1000000000)
                && ((w - o1) * 1000000000 <? 2 ^ 63))%bool = true).
  { apply andb_true_intro; split; apply Z.ltb_lt;
      change (2 ^ 63) with 9223372036854775808; lia. }
  assert (H2 : ((- 2 ^ 63 <? (w + Z.of_nat n * 86400 - o2) * 1000000000)
                && ((w + Z.of_nat n * 86400 - o2) * 1000000000 <? 2 ^ 63))%bool = true).
  { apply andb_true_intro; split; apply Z.ltb_lt;
      change (2 ^ 63) with 9223372036854775808; lia. }
  cbv zeta. rewrite H1. cbn [rbind]. rewrite H2. cbn [rbind]. f_equal.
  replace ((w + Z.of_nat n * 86400 - o2) * 1000000000)
    with ((w - o1) * 1000000000 + Z.of_nat n * Pandas.Timedelta_seconds 86400
          + (o1 - o2) * 1000000000)
    by (unfold Pandas.Timedelta_seconds; lia).
  apply date_range_left_inexact. unfold Pandas.Timedelta_seconds. lia.
Qed.

Lemma offset_drop_adds_a_day_2007 :
  days_of (stamps Caracas 2007) = Return 365%nat
  /\ days_of (stamps UTC 2007) = Return 364%nat.
Proof.
  split.
  - apply (offset_drop_adds_a_day Caracas 2007); [unfold pandas_year; lia | vm_compute ..];
      congruence.
  - apply (days_of_year UTC 2007); [unfold pandas_year; lia | apply steady_UTC].
Defined.

(** ** Where each year's window starts *)

(** The windows drift against the calendar: in a returned table the row
    of the [k]-th year of the range is computed from the slice that
    starts [k] values before the first day of that year (the series
    having one value per calendar day from January 1st of
    [year_start]), and is one value shorter than the year. *)
Theorem windows_drift (utcoffset : Z -> Z) (prec emax : Z) (precip : Numpy.ndarray)
        (ys ye : Z) (df : DataFrame) (k : nat) :
  countable utcoffset ys ye ->
  bucket prec emax precip (map (stamps utcoffset) (range ys (ye + 1))) ys ye = Return df ->
  (k < Z.to_nat (ye + 1 - ys))%nat ->
  let y := ys + Z.of_nat k in
  let first := window_start (map window_length (range ys (ye + 1))) k in
  iloc df k
  = Some (row_of prec emax y (Numpy.slice precip first (window_length y + first)))
  /\ Z.of_nat first = calendar_days (range ys y) - Z.of_nat k
  /\ Z.of_nat (window_length y) = calendar_length y - 1.
Proof.
  intros Hc Hrun Hk y first. split; [|split].
  - apply (bucket_row utcoffset prec emax precip ys ye df k _ Hc Hrun).
    rewrite (nth_error_windows precip _ 0 k (window_length y)).
    + reflexivity.
    + rewrite nth_error_map, nth_error_range by exact Hk. reflexivity.
  - unfold first, window_start. rewrite firstn_map, firstn_range by lia.
    rewrite windows_short_by_count, length_range. unfold y. lia.
  - apply window_one_short.
Qed.

Lemma windows_drift_2002 :
  let precip := repeat (f32 1) 365 ++ repeat (f32 2) 365 in
  iloc (table 24 128 [2001; 2002] (windows precip 0 [364; 364]%nat)) 1
  = Some (row_of 24 128 2002 (Numpy.slice precip 364 (364 + 364)))
  /\ Numpy.slice precip 364 (364 + 364) = f32 1 :: repeat (f32 2) 363.
Proof.
  intros precip.
  destruct (windows_drift UTC 24 128 precip 2001 2002
              (table 24 128 [2001; 2002] (windows precip 0 [364; 364]%nat)) 1)
    as (H & _ & _).
  - apply countable_UTC; lia.
  - vm_compute. reflexivity.
  - vm_compute. lia.
  - split; [exact H | vm_compute; reflexivity].
Defined.

(** ** What the answer of the client is read for *)

(** An answer without any element ends like a failure of the client:
    the [IndexError] of [[0]] is raised inside the same [try], and the
    empty table is returned. *)
Theorem empty_answer_swallowed (utcoffset : Z -> Z) (prec emax : Z) (coord : Type)
        (weather_api : string -> packet coord -> result (list response))
        (ys ye : Z) (ll : coord * coord) (log : network coord) (dates : list (Z * Z)) :
  process_dates utcoffset ys ye = Return dates ->
  weather_api endpoint (request ys ye ll) = Return [] ->
  get_yearly_precipitation utcoffset prec emax coord weather_api ys ye ll log
  = (Return DataFrame_empty, log ++ [(endpoint, request ys ye ll)]).
Proof.
  intros Hd Ha.
  unfold get_yearly_precipitation, send_request, bind, lift, try_except,
    call_weather_api, ret, set_start_date, set_end_date.
  cbn [year_start year_end latitude longitude daily start_date end_date].
  fold (request ys ye ll). rewrite Hd.
  change (mk_packet (snd ll) (fst ll) ys ye "precipitation_sum"
            (Some (str ys ++ "-01-01")%string) (Some (str ye ++ "-12-31")%string))
    with (request ys ye ll).
  rewrite Ha. reflexivity.
Qed.

Lemma empty_answer_swallowed_2000 :
  get_yearly_precipitation UTC 24 128 Z (fun _ _ => Return []) 2000 2001 (13, 52) []
  = (Return DataFrame_empty, [] ++ [(endpoint, request 2000 2001 (13, 52))]).
Proof.
  apply (empty_answer_swallowed UTC 24 128 Z (fun _ _ => Return []) 2000 2001 (13, 52) []
                                (map (stamps UTC) (range 2000 2002))).
  - vm_compute. reflexivity.
  - reflexivity.
Defined.

Lemma windows_app (a b : Numpy.ndarray) (ds : list nat) :
  forall start,
    (start + list_sum ds <= length a)%nat ->
    windows (a ++ b) start ds = windows a start ds.
Proof.
  induction ds as [|d ds IH]; intros start H; [reflexivity|].
  change (list_sum (d :: ds)) with (d + list_sum ds)%nat in H.
  cbn [windows]. rewrite IH by lia. f_equal.
  unfold Numpy.slice. replace (d + start - start)%nat with d by lia.
  rewrite skipn_app, firstn_app, length_skipn.
  replace (d - (length a - start))%nat with 0%nat by lia.
  cbn [firstn]. now rewrite app_nil_r.
Qed.

(** Values that come after the last window are not read: once the
    series reaches the end of the last window, appending anything to it
    leaves the result as it is. *)
Theorem surplus_ignored (utcoffset : Z -> Z) (prec emax : Z)
        (precip extra : Numpy.ndarray) (ys ye : Z) :
  countable utcoffset ys ye ->
  (list_sum (map window_length (range ys (ye + 1))) <= length precip)%nat ->
  bucket prec emax (precip ++ extra) (map (stamps utcoffset) (range ys (ye + 1))) ys ye
  = bucket prec emax precip (map (stamps utcoffset) (range ys (ye + 1))) ys ye.
Proof.
  intros Hc Hlen.
  pose proof (bucket_windows utcoffset prec emax precip ys ye Hc) as B1.
  pose proof (bucket_windows utcoffset prec emax (precip ++ extra) ys ye Hc) as B2.
  cbv zeta in B1, B2. rewrite B1, B2, windows_app by (cbn; lia). reflexivity.
Qed.

Lemma surplus_ignored_2001 :
  bucket 24 128 (repeat (f32 1) 364 ++ [S754_nan; f32 7])
         (map (stamps UTC) (range 2001 2002)) 2001 2001
  = bucket 24 128 (repeat (f32 1) 364) (map (stamps UTC) (range 2001 2002)) 2001 2001.
Proof.
  apply (surplus_ignored UTC 24 128 (repeat (f32 1) 364) [S754_nan; f32 7] 2001 2001).
  - apply countable_UTC; lia.
  - vm_compute. lia.
Defined.

(** ** What a row depends on *)

Lemma window_start_gap (ds : list nat) :
  forall (i j d : nat),
    (i < j)%nat -> nth_error ds i = Some d ->
    (window_start ds i + d <= window_start ds j)%nat.
Proof.
  unfold window_start. induction ds as [|d0 ds IH]; intros i j d Hij Hd.
  - destruct i; discriminate.
  - destruct j as [|j]; [lia|]. destruct i as [|i].
    + cbn in Hd. injection Hd as ->. cbn [firstn].
      change (list_sum (d :: firstn j ds)) with (d + list_sum (firstn j ds))%nat.
      cbn. lia.
    + cbn [nth_error firstn] in *.
      change (list_sum (d0 :: firstn i ds)) with (d0 + list_sum (firstn i ds))%nat.
      change (list_sum (d0 :: firstn j ds)) with (d0 + list_sum (firstn j ds))%nat.
      specialize (IH i j d ltac:(lia) Hd). lia.
Qed.

Lemma slice_agree (l l' : Numpy.ndarray) (a b : nat) :
  (forall p, (a <= p < b)%nat -> nth_error l' p = nth_error l p) ->
  Numpy.slice l' a b = Numpy.slice l a b.
Proof.
  intros H. unfold Numpy.slice. apply nth_error_ext. intros q.
  rewrite !nth_error_firstn, !nth_error_skipn.
  destruct (Nat.ltb_spec q (b - a)); [apply H; lia | reflexivity].
Qed.

Lemma slice_member (l : Numpy.ndarray) (a b p : nat) (x : spec_float) :
  (a <= p < b)%nat -> nth_error l p = Some x -> In x (Numpy.slice l a b).
Proof.
  intros Hp Hx. apply (nth_error_In _ (p - a)). unfold Numpy.slice.
  rewrite nth_error_firstn, nth_error_skipn.
  replace (p - a <? b - a)%nat with true by (symmetry; apply Nat.ltb_lt; lia).
  now replace (a + (p - a))%nat with p by lia.
Qed.

Lemma bucket_iloc_past (utcoffset : Z -> Z) (prec emax : Z) (precip : Numpy.ndarray)
      (ys ye : Z) (df : DataFrame) (i : nat) :
  countable utcoffset ys ye ->
  bucket prec emax precip (map (stamps utcoffset) (range ys (ye + 1))) ys ye = Return df ->
  (Z.to_nat (ye + 1 - ys) <= i)%nat ->
  iloc df i = None.
Proof.
  intros Hc Hrun Hi.
  pose proof (bucket_windows utcoffset prec emax precip ys ye Hc) as Hb.
  cbv zeta in Hb. rewrite Hb in Hrun.
  destruct (forallb nonempty _); [|discriminate]. injection Hrun as <-.
  unfold iloc. rewrite nrows_table, length_range.
  now replace (i <? Z.to_nat (ye + 1 - ys))%nat with false
    by (symmetry; apply Nat.ltb_ge; lia).
Qed.

(** A row is ruled by the slice the loop takes for it, and by nothing
    else.  In a returned table, a NaN at a position inside the slice of
    a year makes the four statistics of that year NaN; and two series
    that differ only at positions inside that slice give the same rows
    for all the other years. *)
Theorem row_ruled_by_its_slice (utcoffset : Z -> Z) (prec emax : Z)
        (precip precip' : Numpy.ndarray) (ys ye : Z) (df df' : DataFrame) (j : nat) :
  countable utcoffset ys ye ->
  bucket prec emax precip (map (stamps utcoffset) (range ys (ye + 1))) ys ye = Return df ->
  bucket prec emax precip' (map (stamps utcoffset) (range ys (ye + 1))) ys ye = Return df' ->
  (j < Z.to_nat (ye + 1 - ys))%nat ->
  let days := window_length (ys + Z.of_nat j) in
  let last_ind := window_start (map window_length (range ys (ye + 1))) j in
  (forall p, ~ (last_ind <= p < days + last_ind)%nat ->
             nth_error precip' p = nth_error precip p) ->
  ((exists p, (last_ind <= p < days + last_ind)%nat /\ nth_error precip p = Some S754_nan) ->
   iloc df j = Some (row (ys + Z.of_nat j) S754_nan S754_nan S754_nan S754_nan))
  /\ (forall i, i <> j -> iloc df' i = iloc df i).
Proof.
  intros Hc Hrun Hrun' Hj days last_ind Hsame.
  set (ds := map window_length (range ys (ye + 1))) in *.
  assert (Hds : forall k, (k < Z.to_nat (ye + 1 - ys))%nat ->
                          nth_error ds k = Some (window_length (ys + Z.of_nat k))).
  { intros k Hk. unfold ds. now rewrite nth_error_map, nth_error_range. }
  assert (Hwin : forall (a : Numpy.ndarray) k,
             (k < Z.to_nat (ye + 1 - ys))%nat ->
             nth_error (windows a 0 ds) k
             = Some (Numpy.slice a (window_start ds k)
                                 (window_length (ys + Z.of_nat k) + window_start ds k))).
  { intros a k Hk. now rewrite (nth_error_windows a ds 0 k _ (Hds k Hk)). }
  split.
  - intros (p & Hp & Hnan).
    rewrite (bucket_row utcoffset prec emax precip ys ye df j _ Hc Hrun (Hwin precip j Hj)).
    destruct (nan_statistics prec emax
                (Numpy.slice precip (window_start ds j) (days + window_start ds j)))
      as (Hs & Ha & Hlo & Hhi).
    { apply (slice_member precip _ _ p); [exact Hp | exact Hnan]. }
    unfold row_of. fold days. now rewrite Hs, Ha, Hlo, Hhi.
  - intros i Hi. destruct (Nat.lt_ge_cases i (Z.to_nat (ye + 1 - ys))) as [Hlt | Hge].
    + rewrite (bucket_row utcoffset prec emax precip ys ye df i _ Hc Hrun (Hwin precip i Hlt)).
      rewrite (bucket_row utcoffset prec emax precip' ys ye df' i _ Hc Hrun'
                          (Hwin precip' i Hlt)).
      do 2 f_equal. apply slice_agree. intros p Hp. apply Hsame. fold ds in last_ind.
      destruct (Nat.lt_gt_cases i j) as [Hneq _]. destruct (Hneq Hi) as [Hij | Hji].
      * pose proof (window_start_gap ds i j _ Hij (Hds i Hlt)). unfold last_ind. lia.
      * pose proof (window_start_gap ds j i _ Hji (Hds j Hj)). unfold last_ind, days. lia.
    + rewrite (bucket_iloc_past utcoffset prec emax precip ys ye df i Hc Hrun Hge).
      apply (bucket_iloc_past utcoffset prec emax precip' ys ye df' i Hc Hrun' Hge).
Qed.

Lemma row_ruled_by_its_slice_2002 :
  let precip := repeat (f32 1) 730 in
  let precip' := repeat (f32 1) 364 ++ [S754_nan] ++ repeat (f32 1) 365 in
  iloc (table 24 128 [2001; 2002] (windows precip' 0 [364; 364]%nat)) 1
  = Some (row 2002 S754_nan S754_nan S754_nan S754_nan)
  /\ iloc (table 24 128 [2001; 2002] (windows precip' 0 [364; 364]%nat)) 0
     = iloc (table 24 128 [2001; 2002] (windows precip 0 [364; 364]%nat)) 0.
Proof.
  intros precip precip'.
  destruct (row_ruled_by_its_slice UTC 24 128 precip' precip 2001 2002
              (table 24 128 [2001; 2002] (windows precip' 0 [364; 364]%nat))
              (table 24 128 [2001; 2002] (windows precip 0 [364; 364]%nat)) 1)
    as [Hnan Hother].
  - apply countable_UTC; lia.
  - vm_compute. reflexivity.
  - vm_compute. reflexivity.
  - vm_compute. lia.
  - intros p Hp. change (window_length (2001 + Z.of_nat 1)) with 364%nat in Hp.
    change (window_start (map window_length (range 2001 (2002 + 1))) 1) with 364%nat in Hp.
    unfold precip, precip'.
    destruct (Nat.lt_ge_cases p 364) as [Hlt | Hge].
    + rewrite nth_error_app1 by (rewrite repeat_length; lia).
      rewrite !nth_error_repeat by lia. reflexivity.
    + destruct (Nat.lt_ge_cases p 730) as [Hin | Hout].
      * rewrite !nth_error_app2 by (cbn [length]; rewrite ?repeat_length; cbn; lia).
        rewrite !nth_error_repeat by (cbn [length]; rewrite ?repeat_length; cbn; lia).
        reflexivity.
      * rewrite (proj2 (nth_error_None (repeat (f32 1) 730) p))
          by (rewrite repeat_length; lia).
        symmetry. apply nth_error_None. rewrite !length_app, !repeat_length. cbn. lia.
  - split.
    + apply Hnan. exists 364%nat. split; [vm_compute; lia | reflexivity].
    + symmetry. apply Hother. discriminate.
Defined.
